(** * Block Account service: a shallow embedding of [main.go] and its properties

    The development follows the layout of the Go program:

    - [GoTime], [Strconv]: the few standard-library functions the program calls
      ([time.Time.Add], [time.Time.Sub], [strconv.Atoi]);
    - [Pg]: what the column types of the [block_accounts] table (the DDL of
      [initDatabase]) do to a value that is written into them;
    - the data model, the validation helpers and the response writers;
    - the store: the table, its id sequence and the four SQL statements;
    - the service ([CreateBlockAccount], [GetBlockAccount],
      [GetUserBlockAccounts], [DeleteBlockAccount]);
    - the HTTP handlers, the middleware and the router;
    - [Legacy]: the service and the handlers of the earlier revision that
      follows in [main.go];
    - the theorems, one per property of the specification, C1 to C10,
      and the further properties of the code, X1 to X16.

    Conventions.  A Go [int] is a [Z] (the program does no arithmetic on
    ids, so no wrap-around can occur).  A Go [float64] is represented by the
    rational number it denotes; binary rounding of floating point is not
    modelled.  A [time.Time] is an instant, in nanoseconds since the Unix
    epoch, taken in UTC.  A Go pair [(v, err)] is a [result]; a pointer that
    may be [nil] is an [option]. *)

From Stdlib Require Import ZArith QArith Qabs Bool Ascii String List Lia.
From Stdlib Require Import Permutation Sorted.
Import ListNotations.

Local Open Scope string_scope.
Local Open Scope Z_scope.

(** ** Package [time] *)

Module GoTime.

Definition Time := Z.
Definition Duration := Z.

Definition Nanosecond : Duration := 1.
Definition Microsecond : Duration := 1000 * Nanosecond.
Definition Millisecond : Duration := 1000 * Microsecond.
Definition Second : Duration := 1000 * Millisecond.
Definition Minute : Duration := 60 * Second.
Definition Hour : Duration := 60 * Minute.

Definition minDuration : Duration := - 2 ^ 63.
Definition maxDuration : Duration := 2 ^ 63 - 1.

(** [t.Add(d)] *)
Definition Add (t : Time) (d : Duration) : Time := t + d.

(** [t.Sub(u)]: the difference, saturated to the range of [Duration]. *)
Definition Sub (t u : Time) : Duration :=
  let d := t - u in
  if d <? minDuration then minDuration
  else if maxDuration <? d then maxDuration
  else d.

Definition Day : Duration := 24 * Hour.

End GoTime.

(** ** Package [strconv] *)

Module Strconv.

Definition digit (c : ascii) : option Z :=
  let n := Z.of_N (N_of_ascii c) in
  if (48 <=? n) && (n <=? 57) then Some (n - 48) else None.

(** The digit loop of [Atoi] and [ParseUint]: base 10, no underscores. *)
Fixpoint digits (s : string) (acc : Z) : option Z :=
  match s with
  | EmptyString => Some acc
  | String c rest =>
      match digit c with
      | Some d => digits rest (acc * 10 + d)
      | None => None
      end
  end.

Definition is_sign (c : ascii) : bool :=
  Ascii.eqb c "-"%char || Ascii.eqb c "+"%char.

(** [strconv.Atoi] on a 64-bit platform; [None] stands for the
    [*NumError] (syntax or range) that the callers only test against
    [nil]. *)
Definition Atoi (s : string) : option Z :=
  match s with
  | EmptyString => None
  | String c rest =>
      let body := if is_sign c then rest else s in
      match body with
      | EmptyString => None
      | _ =>
          match digits body 0 with
          | None => None
          | Some n =>
              let v := if Ascii.eqb c "-"%char then - n else n in
              if (- 2 ^ 63 <=? v) && (v <=? 2 ^ 63 - 1) then Some v else None
          end
      end
  end.

End Strconv.

(** ** Column types of the [block_accounts] table *)

Module Pg.

(** Nearest integer to [n / d], ties away from zero. *)
Definition round_div (n : Z) (d : positive) : Z :=
  Z.sgn n * ((2 * Z.abs n + Zpos d) / (2 * Zpos d)).

(** A value written into a [DECIMAL(p, scale)] column keeps [scale]
    decimal places. *)
Definition numeric (scale : nat) (q : Q) : Q :=
  let m := Z.to_pos (10 ^ Z.of_nat scale) in
  Qmake (round_div (Qnum q * Zpos m) (Qden q)) m.

(** A value written into a [TIMESTAMP] column keeps microseconds. *)
Definition timestamp (t : GoTime.Time) : GoTime.Time :=
  GoTime.Microsecond * ((t + 500) / GoTime.Microsecond).

End Pg.

(** ** Data model *)

Record BlockAccount := {
  ID : Z;
  UserID : Z;
  Principal : Q;
  StartDate : GoTime.Time;
  EndDate : GoTime.Time;
  InterestRate : Q;
  Status : string;
  CreatedAt : GoTime.Time;
  UpdatedAt : GoTime.Time
}.

Record CreateAccountRequest := {
  reqUserID : Z;
  reqPrincipal : Q;
  reqPeriod : string
}.

Record ErrorResponse := {
  errError : string;
  errCode : Z;
  errMessage : string
}.

(** The [Data interface{}] field of [SuccessResponse] holds either the
    [*BlockAccount] or the [[]*BlockAccount] handed to [writeSuccess]. *)
Inductive Data :=
| DataAccount (a : option BlockAccount)
| DataAccounts (l : list BlockAccount).

Record SuccessResponse := {
  sucSuccess : bool;
  sucData : Data;
  sucMessage : string
}.

(** Go [error] values.  [ErrNoRows] is the sentinel [sql.ErrNoRows];
    [Errorf] is a value built by [fmt.Errorf]; [DriverError] is whatever the
    database driver reports. *)
Inductive error :=
| ErrNoRows
| Errorf (msg : string)
| DriverError (msg : string).

Definition Error (e : error) : string :=
  match e with
  | ErrNoRows => "sql: no rows in result set"
  | Errorf msg => msg
  | DriverError msg => msg
  end.

(** [err == sql.ErrNoRows] *)
Definition isErrNoRows (e : error) : bool :=
  match e with ErrNoRows => true | _ => false end.

Inductive result (A : Type) :=
| Ok (a : A)
| Err (e : error).
Arguments Ok {A} a.
Arguments Err {A} e.

(** ** Validation *)

(** A Go [map[string]bool] literal; a missing key reads as [false]. *)
Fixpoint map_index (m : list (string * bool)) (k : string) : bool :=
  match m with
  | [] => false
  | (k', v) :: m' => if String.eqb k' k then v else map_index m' k
  end.

Definition isValidPeriod (period : string) : bool :=
  let validPeriods := [("3m", true); ("6m", true); ("1y", true); ("3y", true)] in
  map_index validPeriods period.

(** [None] is the [nil] error. *)
Definition validateCreateRequest (req : CreateAccountRequest) : option error :=
  if reqUserID req <=? 0 then
    Some (Errorf "user_id must be positive")
  else if Qle_bool (reqPrincipal req) 0 then
    Some (Errorf "principal must be positive")
  else if negb (isValidPeriod (reqPeriod req)) then
    Some (Errorf ("invalid period: " ++ reqPeriod req
                  ++ ". Valid options are: 3m, 6m, 1y, 3y"))
  else None.

(** ** HTTP responses *)

Definition StatusOK : Z := 200.
Definition StatusNoContent : Z := 204.
Definition StatusBadRequest : Z := 400.
Definition StatusNotFound : Z := 404.
Definition StatusInternalServerError : Z := 500.
Definition StatusServiceUnavailable : Z := 503.

Definition StatusText (code : Z) : string :=
  if code =? 200 then "OK"
  else if code =? 204 then "No Content"
  else if code =? 400 then "Bad Request"
  else if code =? 404 then "Not Found"
  else if code =? 500 then "Internal Server Error"
  else if code =? 503 then "Service Unavailable"
  else "".

Inductive Body :=
| NoBody
| ErrorBody (e : ErrorResponse)
| SuccessBody (s : SuccessResponse).

(** What a handler leaves in the [http.ResponseWriter]. *)
Record Response := {
  StatusCode : Z;
  ContentType : option string;
  body : Body
}.

Definition writeError (statusCode : Z) (message : string) : Response :=
  {| StatusCode := statusCode;
     ContentType := Some "application/json";
     body := ErrorBody {| errError := StatusText statusCode;
                          errCode := statusCode;
                          errMessage := message |} |}.

(** No [WriteHeader] call: the first write sends status 200. *)
Definition writeSuccess (data : Data) (message : string) : Response :=
  {| StatusCode := StatusOK;
     ContentType := Some "application/json";
     body := SuccessBody {| sucSuccess := true;
                            sucData := data;
                            sucMessage := message |} |}.

(** ** The store

    The database behind [s.db]: the rows of [block_accounts] in heap order,
    the last value of the sequence behind [id SERIAL], the wall clock, and a
    script that fixes the fate of the statements still to come.  An entry
    [Some msg] makes the next statement fail with the driver error [msg]
    without touching the table (lost connection, expired context, a value
    the server refuses); [None] or an exhausted script lets it run. *)

Record World := {
  block_accounts : list BlockAccount;
  block_accounts_id_seq : Z;
  clock : GoTime.Time;
  script : list (option string)
}.

Definition set_rows (rows : list BlockAccount) (w : World) : World :=
  {| block_accounts := rows;
     block_accounts_id_seq := block_accounts_id_seq w;
     clock := clock w;
     script := script w |}.

Definition set_seq (n : Z) (w : World) : World :=
  {| block_accounts := block_accounts w;
     block_accounts_id_seq := n;
     clock := clock w;
     script := script w |}.

Definition set_clock (t : GoTime.Time) (w : World) : World :=
  {| block_accounts := block_accounts w;
     block_accounts_id_seq := block_accounts_id_seq w;
     clock := t;
     script := script w |}.

Definition set_script (s : list (option string)) (w : World) : World :=
  {| block_accounts := block_accounts w;
     block_accounts_id_seq := block_accounts_id_seq w;
     clock := clock w;
     script := s |}.

(** The state after [initDatabase] on a fresh database. *)
Definition initial : World :=
  {| block_accounts := [];
     block_accounts_id_seq := 0;
     clock := 0;
     script := [] |}.

(** Computations against the world. *)
Definition M (A : Type) : Type := World -> A * World.

Definition ret {A} (a : A) : M A := fun w => (a, w).

Definition bind {A B} (c : M A) (k : A -> M B) : M B :=
  fun w => let (a, w') := c w in k a w'.

Notation "x <- c ;; k" := (bind c (fun x => k))
  (at level 61, c at next level, right associativity).

(** [time.Now()] *)
Definition Now : M GoTime.Time := fun w => (clock w, w).

(** One round trip to the database. *)
Definition statement {A} (run : M (result A)) : M (result A) :=
  fun w =>
    match script w with
    | Some msg :: rest => (Err (DriverError msg), set_script rest w)
    | _ => run (set_script (tl (script w)) w)
    end.

Definition has_id (id : Z) (a : BlockAccount) : bool := ID a =? id.
Definition has_user (userID : Z) (a : BlockAccount) : bool := UserID a =? userID.

(** [INSERT INTO block_accounts(user_id, principal, start_date, end_date,
    interest_rate, status) VALUES ($1, $2, $3, $4, $5, 'active')
    RETURNING id], scanned into [id]. *)
Definition insert_returning_id (userID : Z) (principal : Q)
    (startDate endDate : GoTime.Time) (interestRate : Q) : M (result Z) :=
  statement (fun w =>
    let id := block_accounts_id_seq w + 1 in
    let w := set_seq id w in
    if existsb (has_id id) (block_accounts w) then
      (Err (DriverError "pq: duplicate key value violates unique constraint"), w)
    else
      let row :=
        {| ID := id;
           UserID := userID;
           Principal := Pg.numeric 2 principal;
           StartDate := Pg.timestamp startDate;
           EndDate := Pg.timestamp endDate;
           InterestRate := Pg.numeric 4 interestRate;
           Status := "active";
           CreatedAt := Pg.timestamp (clock w);
           UpdatedAt := Pg.timestamp (clock w) |} in
      (Ok id, set_rows (block_accounts w ++ [row])%list w)).

(** [SELECT id, user_id, ... FROM block_accounts WHERE id=$1], scanned into
    a [BlockAccount]; [QueryRowContext(...).Scan] reports [sql.ErrNoRows]
    when the query selects nothing. *)
Definition select_by_id (id : Z) : M (result BlockAccount) :=
  statement (fun w =>
    match find (has_id id) (block_accounts w) with
    | Some row => (Ok row, w)
    | None => (Err ErrNoRows, w)
    end).

(** [ORDER BY created_at DESC] *)
Fixpoint insert_desc (a : BlockAccount) (l : list BlockAccount)
  : list BlockAccount :=
  match l with
  | [] => [a]
  | b :: l' =>
      if CreatedAt b <=? CreatedAt a then a :: l else b :: insert_desc a l'
  end.

Definition order_by_created_at_desc (l : list BlockAccount) : list BlockAccount :=
  fold_right insert_desc [] l.

(** [SELECT ... FROM block_accounts WHERE user_id=$1 ORDER BY created_at
    DESC], with the [rows.Next]/[rows.Scan] loop that appends every row. *)
Definition select_by_user (userID : Z) : M (result (list BlockAccount)) :=
  statement (fun w =>
    (Ok (order_by_created_at_desc (filter (has_user userID) (block_accounts w))),
     w)).

(** [DELETE FROM block_accounts WHERE id=$1]; the value is
    [result.RowsAffected()]. *)
Definition delete_by_id (id : Z) : M (result Z) :=
  statement (fun w =>
    let hit := filter (has_id id) (block_accounts w) in
    let keep := filter (fun a => negb (has_id id a)) (block_accounts w) in
    (Ok (Z.of_nat (length hit)), set_rows keep w)).

(** ** The service *)

(** The interface [BlockAccountService]. *)
Record BlockAccountService := {
  svcCreateBlockAccount : Z -> Q -> string -> M (result (option BlockAccount));
  svcGetBlockAccount : Z -> M (result (option BlockAccount));
  svcGetUserBlockAccounts : Z -> M (result (list BlockAccount));
  svcDeleteBlockAccount : Z -> M (option error)
}.

(** The [switch period] of [CreateBlockAccount]. *)
Definition period_terms (period : string) : option (GoTime.Duration * Q) :=
  if String.eqb period "3m" then Some (GoTime.Hour * 24 * 30 * 3, 0.02%Q)
  else if String.eqb period "6m" then Some (GoTime.Hour * 24 * 30 * 6, 0.035%Q)
  else if String.eqb period "1y" then Some (GoTime.Hour * 24 * 365, 0.05%Q)
  else if String.eqb period "3y" then Some (GoTime.Hour * 24 * 365 * 3, 0.10%Q)
  else None.

Definition CreateBlockAccount (userID : Z) (principal : Q) (period : string)
  : M (result (option BlockAccount)) :=
  match period_terms period with
  | None => ret (Err (Errorf ("invalid period: " ++ period)))
  | Some (duration, interestRate) =>
      startDate <- Now ;;
      let endDate := GoTime.Add startDate duration in
      r <- insert_returning_id userID principal startDate endDate interestRate ;;
      match r with
      | Err err => ret (Err err)
      | Ok id =>
          (* Retrieve the full account details *)
          r <- select_by_id id ;;
          match r with
          | Err err => ret (Err err)
          | Ok account => ret (Ok (Some account))
          end
      end
  end.

Definition GetBlockAccount (id : Z) : M (result (option BlockAccount)) :=
  r <- select_by_id id ;;
  match r with
  | Err err => if isErrNoRows err then ret (Ok None) else ret (Err err)
  | Ok account => ret (Ok (Some account))
  end.

Definition GetUserBlockAccounts (userID : Z) : M (result (list BlockAccount)) :=
  r <- select_by_user userID ;;
  match r with
  | Err err => ret (Err err)
  | Ok accounts => ret (Ok accounts)
  end.

(** [None] is the [nil] error.  [result.RowsAffected()] of the driver in
    use does not fail, so its error branch has no counterpart here. *)
Definition DeleteBlockAccount (id : Z) : M (option error) :=
  r <- delete_by_id id ;;
  match r with
  | Err err => ret (Some err)
  | Ok rowsAffected =>
      if rowsAffected =? 0 then ret (Some ErrNoRows) else ret None
  end.

(** [&service{db: db, logger: logger}] *)
Definition service : BlockAccountService :=
  {| svcCreateBlockAccount := CreateBlockAccount;
     svcGetBlockAccount := GetBlockAccount;
     svcGetUserBlockAccounts := GetUserBlockAccounts;
     svcDeleteBlockAccount := DeleteBlockAccount |}.

(** ** The HTTP layer

    A handler receives what [r.Context().Value(ServiceKey)] asserts to
    ([None] when the assertion fails) and the part of the request it
    reads: the outcome of decoding the JSON body ([None] when
    [Decode] fails), or the raw path parameter.  The five-second
    [context.WithTimeout] has no state of its own: a deadline that
    expires is one of the failures the script of the world stands for. *)

Definition createBlockAccountHandler (ctx : option BlockAccountService)
    (decoded : option CreateAccountRequest) : M Response :=
  match ctx with
  | None => ret (writeError StatusInternalServerError "Service not available")
  | Some svc =>
      match decoded with
      | None => ret (writeError StatusBadRequest "Invalid request body")
      | Some req =>
          match validateCreateRequest req with
          | Some err => ret (writeError StatusBadRequest (Error err))
          | None =>
              r <- svcCreateBlockAccount svc
                     (reqUserID req) (reqPrincipal req) (reqPeriod req) ;;
              match r with
              | Err err => ret (writeError StatusInternalServerError (Error err))
              | Ok account =>
                  ret (writeSuccess (DataAccount account)
                                    "Block account created successfully")
              end
          end
      end
  end.

Definition getBlockAccountHandler (ctx : option BlockAccountService)
    (idStr : string) : M Response :=
  match ctx with
  | None => ret (writeError StatusInternalServerError "Service not available")
  | Some svc =>
      match Strconv.Atoi idStr with
      | None => ret (writeError StatusBadRequest "Invalid block account ID")
      | Some id =>
          r <- svcGetBlockAccount svc id ;;
          match r with
          | Err err => ret (writeError StatusInternalServerError (Error err))
          | Ok None => ret (writeError StatusNotFound "Block account not found")
          | Ok (Some account) =>
              ret (writeSuccess (DataAccount (Some account))
                                "Block account retrieved successfully")
          end
      end
  end.

Definition getUserBlockAccountsHandler (ctx : option BlockAccountService)
    (userIDStr : string) : M Response :=
  match ctx with
  | None => ret (writeError StatusInternalServerError "Service not available")
  | Some svc =>
      match Strconv.Atoi userIDStr with
      | None => ret (writeError StatusBadRequest "Invalid user ID")
      | Some userID =>
          r <- svcGetUserBlockAccounts svc userID ;;
          match r with
          | Err err => ret (writeError StatusInternalServerError (Error err))
          | Ok accounts =>
              ret (writeSuccess (DataAccounts accounts)
                                "User block accounts retrieved successfully")
          end
      end
  end.

Definition deleteBlockAccountHandler (ctx : option BlockAccountService)
    (idStr : string) : M Response :=
  match ctx with
  | None => ret (writeError StatusInternalServerError "Service not available")
  | Some svc =>
      match Strconv.Atoi idStr with
      | None => ret (writeError StatusBadRequest "Invalid block account ID")
      | Some id =>
          err <- svcDeleteBlockAccount svc id ;;
          match err with
          | Some err =>
              if isErrNoRows err then
                ret (writeError StatusNotFound "Block account not found")
              else
                ret (writeError StatusInternalServerError (Error err))
          | None =>
              ret {| StatusCode := StatusNoContent;
                     ContentType := None;
                     body := NoBody |}
          end
      end
  end.

(** [ServiceMiddleware(svc)]: stores [svc] under [ServiceKey] before the
    handler runs. *)
Definition ServiceMiddleware {A} (svc : BlockAccountService)
    (next : option BlockAccountService -> A) : A :=
  next (Some svc).

(** The four API routes registered in [main]. *)
Inductive Request :=
| POST_block_account (decoded : option CreateAccountRequest)
| GET_block_account (id : string)
| GET_user_block_accounts (userID : string)
| DELETE_block_account (id : string).

Definition ServeHTTP (r : Request) : M Response :=
  ServiceMiddleware service (fun ctx =>
    match r with
    | POST_block_account decoded => createBlockAccountHandler ctx decoded
    | GET_block_account id => getBlockAccountHandler ctx id
    | GET_user_block_accounts userID => getUserBlockAccountsHandler ctx userID
    | DELETE_block_account id => deleteBlockAccountHandler ctx id
    end).

(** What can happen to the running system: a request is served, time
    passes, or the fate of the coming statements is fixed. *)
Inductive Event :=
| Serve (r : Request)
| Elapse (d : N)
| Forecast (s : list (option string)).

Definition step (w : World) (e : Event) : World :=
  match e with
  | Serve r => snd (ServeHTTP r w)
  | Elapse d => set_clock (clock w + Z.of_N d) w
  | Forecast s => set_script s w
  end.

Definition run (es : list Event) (w : World) : World := fold_left step es w.

(** ** The earlier revision of the service

    [main.go] is followed by an earlier revision of the same program.  Its
    [CreateBlockAccount] runs the same [INSERT] but does not read the row
    back: it returns a record assembled from its own variables.  Its
    [BlockAccount] has no [created_at] and [updated_at]. *)

Module Legacy.

Definition StoredRow : Type := BlockAccount.
Definition col_id : StoredRow -> Z := ID.
Definition col_user_id : StoredRow -> Z := UserID.
Definition col_principal : StoredRow -> Q := Principal.
Definition col_start_date : StoredRow -> GoTime.Time := StartDate.
Definition col_end_date : StoredRow -> GoTime.Time := EndDate.
Definition col_interest_rate : StoredRow -> Q := InterestRate.
Definition col_status : StoredRow -> string := Status.

Record BlockAccount := {
  ID : Z;
  UserID : Z;
  Principal : Q;
  StartDate : GoTime.Time;
  EndDate : GoTime.Time;
  InterestRate : Q;
  Status : string
}.

(** [Scan] of the seven columns the earlier [SELECT] names. *)
Definition scan (row : StoredRow) : BlockAccount :=
  {| ID := col_id row;
     UserID := col_user_id row;
     Principal := col_principal row;
     StartDate := col_start_date row;
     EndDate := col_end_date row;
     InterestRate := col_interest_rate row;
     Status := col_status row |}.

Definition CreateBlockAccount (userID : Z) (principal : Q) (period : string)
  : M (result (option BlockAccount)) :=
  match period_terms period with
  | None => ret (Err (Errorf ("invalid period: " ++ period)))
  | Some (duration, interestRate) =>
      startDate <- Now ;;
      let endDate := GoTime.Add startDate duration in
      r <- insert_returning_id userID principal startDate endDate interestRate ;;
      match r with
      | Err err => ret (Err err)
      | Ok id =>
          ret (Ok (Some {| ID := id;
                           UserID := userID;
                           Principal := principal;
                           StartDate := startDate;
                           EndDate := endDate;
                           InterestRate := interestRate;
                           Status := "active" |}))
      end
  end.

Definition GetBlockAccount (id : Z) : M (result (option BlockAccount)) :=
  r <- select_by_id id ;;
  match r with
  | Err err => if isErrNoRows err then ret (Ok None) else ret (Err err)
  | Ok row => ret (Ok (Some (scan row)))
  end.

(** [None] is the [nil] error. *)
Definition DeleteBlockAccount (id : Z) : M (option error) :=
  r <- delete_by_id id ;;
  match r with
  | Err err => ret (Some err)
  | Ok rowsAffected =>
      if rowsAffected =? 0 then ret (Some ErrNoRows) else ret None
  end.

(** The interface of the earlier revision has three methods. *)
Record BlockAccountService := {
  svcCreateBlockAccount : Z -> Q -> string -> M (result (option BlockAccount));
  svcGetBlockAccount : Z -> M (result (option BlockAccount));
  svcDeleteBlockAccount : Z -> M (option error)
}.

Definition service : BlockAccountService :=
  {| svcCreateBlockAccount := CreateBlockAccount;
     svcGetBlockAccount := GetBlockAccount;
     svcDeleteBlockAccount := DeleteBlockAccount |}.

(** The bodies the earlier handlers write: the text of [http.Error], the
    JSON object of the create handler, the bare account of the get
    handler. *)
Inductive Body :=
| NoBody
| TextBody (text : string)
| CreatedBody (message : string) (account : option BlockAccount)
| AccountBody (account : BlockAccount).

Record Response := {
  StatusCode : Z;
  ContentType : option string;
  body : Body
}.

Definition newline : string := String (ascii_of_nat 10) EmptyString.

(** [http.Error(w, error, code)]: a plain-text body, the message followed
    by a line feed. *)
Definition httpError (message : string) (code : Z) : Response :=
  {| StatusCode := code;
     ContentType := Some "text/plain; charset=utf-8";
     body := TextBody (message ++ newline) |}.

Definition createBlockAccountHandler (ctx : option BlockAccountService)
    (decoded : option CreateAccountRequest) : M Response :=
  match ctx with
  | None => ret (httpError "Service not available" StatusInternalServerError)
  | Some svc =>
      match decoded with
      | None => ret (httpError "Invalid request body" StatusBadRequest)
      | Some req =>
          r <- svcCreateBlockAccount svc
                 (reqUserID req) (reqPrincipal req) (reqPeriod req) ;;
          match r with
          | Err err => ret (httpError (Error err) StatusBadRequest)
          | Ok account =>
              ret {| StatusCode := StatusOK;
                     ContentType := Some "application/json";
                     body := CreatedBody "Block account created successfully"
                                         account |}
          end
      end
  end.

Definition getBlockAccountHandler (ctx : option BlockAccountService)
    (idStr : string) : M Response :=
  match ctx with
  | None => ret (httpError "Service not available" StatusInternalServerError)
  | Some svc =>
      match Strconv.Atoi idStr with
      | None => ret (httpError "Invalid block account ID" StatusBadRequest)
      | Some id =>
          r <- svcGetBlockAccount svc id ;;
          match r with
          | Err err => ret (httpError (Error err) StatusInternalServerError)
          | Ok None => ret (httpError "Block account not found" StatusNotFound)
          | Ok (Some account) =>
              ret {| StatusCode := StatusOK;
                     ContentType := Some "application/json";
                     body := AccountBody account |}
          end
      end
  end.

Definition deleteBlockAccountHandler (ctx : option BlockAccountService)
    (idStr : string) : M Response :=
  match ctx with
  | None => ret (httpError "Service not available" StatusInternalServerError)
  | Some svc =>
      match Strconv.Atoi idStr with
      | None => ret (httpError "Invalid block account ID" StatusBadRequest)
      | Some id =>
          err <- svcDeleteBlockAccount svc id ;;
          match err with
          | Some err =>
              if isErrNoRows err then
                ret (httpError "Block account not found" StatusNotFound)
              else
                ret (httpError (Error err) StatusInternalServerError)
          | None =>
              ret {| StatusCode := StatusNoContent;
                     ContentType := None;
                     body := NoBody |}
          end
      end
  end.

Definition ServiceMiddleware {A} (svc : BlockAccountService)
    (next : option BlockAccountService -> A) : A :=
  next (Some svc).

(** The three routes the earlier [main] registers. *)
Inductive Request :=
| POST_block_account (decoded : option CreateAccountRequest)
| GET_block_account (id : string)
| DELETE_block_account (id : string).

Definition ServeHTTP (r : Request) : M Response :=
  ServiceMiddleware service (fun ctx =>
    match r with
    | POST_block_account decoded => createBlockAccountHandler ctx decoded
    | GET_block_account id => getBlockAccountHandler ctx id
    | DELETE_block_account id => deleteBlockAccountHandler ctx id
    end).

End Legacy.

(** ** The Rate Table of the specification

    Section 4.1 of the specification words the table in days and
    percentages; [RateTable.resolve] follows those words, not the code. *)

Module RateTable.

Definition resolve (period : string) : option (Z * Q) :=
  if String.eqb period "3m" then Some (90, 0.02%Q)
  else if String.eqb period "6m" then Some (180, 0.035%Q)
  else if String.eqb period "1y" then Some (365, 0.05%Q)
  else if String.eqb period "3y" then Some (1095, 0.10%Q)
  else None.

Definition codes : list string := ["3m"; "6m"; "1y"; "3y"].

End RateTable.

(** ** Conditions on the world *)

(** The next [n] statements are not scripted to fail. *)
Fixpoint clear (n : nat) (s : list (option string)) : bool :=
  match n with
  | O => true
  | S n' =>
      match s with
      | Some _ :: _ => false
      | _ => clear n' (tl s)
      end
  end.

(** The sequence has moved past every id in the table. *)
Definition seq_ahead (w : World) : bool :=
  forallb (fun a => ID a <=? block_accounts_id_seq w) (block_accounts w).

(** [id] is a primary key: no two rows share it. *)
Definition unique_ids (w : World) : Prop :=
  NoDup (map ID (block_accounts w)).

Definition present (id : Z) (w : World) : Prop :=
  In id (map ID (block_accounts w)).

(** Worlds the system can be in. *)
Definition reachable (w : World) : Prop :=
  exists es, w = run es initial.

(** ** Rows, changes and invariants *)

(** The row that the [INSERT] appends. *)
Definition inserted_row (w : World) (userID : Z) (principal : Q)
    (startDate endDate : GoTime.Time) (interestRate : Q) : BlockAccount :=
  {| ID := block_accounts_id_seq w + 1;
     UserID := userID;
     Principal := Pg.numeric 2 principal;
     StartDate := Pg.timestamp startDate;
     EndDate := Pg.timestamp endDate;
     InterestRate := Pg.numeric 4 interestRate;
     Status := "active";
     CreatedAt := Pg.timestamp (clock w);
     UpdatedAt := Pg.timestamp (clock w) |}.

(** The row that [CreateBlockAccount] leaves in the table. *)
Definition created_row (w : World) (userID : Z) (principal : Q)
    (duration : GoTime.Duration) (interestRate : Q) : BlockAccount :=
  inserted_row w userID principal
    (clock w) (GoTime.Add (clock w) duration) interestRate.

Definition after_insert (w : World) (row : BlockAccount) : World :=
  {| block_accounts := (block_accounts w ++ [row])%list;
     block_accounts_id_seq := block_accounts_id_seq w + 1;
     clock := clock w;
     script := tl (script w) |}.

(** The order of [ORDER BY created_at DESC]. *)
Definition newer_first (a b : BlockAccount) : Prop := CreatedAt b <= CreatedAt a.

(** The table after a request against the table before it: untouched, one
    row appended by a create request that passed validation, or the rows
    of one id removed by a delete request. *)
Inductive table_change (w w' : World) : Request -> Prop :=
| Unchanged (r : Request) :
    block_accounts w' = block_accounts w ->
    table_change w w' r
| Inserted (req : CreateAccountRequest) (a : BlockAccount) :
    validateCreateRequest req = None ->
    ~ present (ID a) w ->
    ID a = block_accounts_id_seq w + 1 ->
    block_accounts_id_seq w' = block_accounts_id_seq w + 1 ->
    UserID a = reqUserID req ->
    Status a = "active" ->
    block_accounts w' = (block_accounts w ++ [a])%list ->
    table_change w w' (POST_block_account (Some req))
| Removed (idStr : string) (id : Z) :
    Strconv.Atoi idStr = Some id ->
    block_accounts w'
    = filter (fun a => negb (has_id id a)) (block_accounts w) ->
    table_change w w' (DELETE_block_account idStr).

(** What holds of the table in every state the system can reach. *)
Definition consistent (w : World) : Prop :=
  seq_ahead w = true /\
  unique_ids w /\
  Forall (fun a => Status a = "active") (block_accounts w) /\
  0 <= block_accounts_id_seq w /\
  Forall (fun a => 0 < ID a) (block_accounts w).

(** What validation, the period switch and the column defaults give every
    row that a create request stores. *)
Definition validated_row (a : BlockAccount) : Prop :=
  0 < UserID a /\
  (0 <= Principal a)%Q /\
  Status a = "active" /\
  UpdatedAt a = CreatedAt a /\
  StartDate a < EndDate a /\
  exists period duration rate,
    period_terms period = Some (duration, rate) /\
    EndDate a = GoTime.Add (StartDate a) duration /\
    (InterestRate a == rate)%Q.

(** ** Example worlds *)

(** A table with one account, for the examples below. *)
Definition one_account : World :=
  snd (ServeHTTP
         (POST_block_account
            (Some {| reqUserID := 7; reqPrincipal := 5000%Q; reqPeriod := "1y" |}))
         initial).

(** A world whose next statement is scripted to fail. *)
Definition one_account_offline : World :=
  set_script [Some "pq: connection refused"] one_account.

(** ** Lemmas on the library functions *)

Lemma timestamp_shift (t : GoTime.Time) (k : Z) :
  Pg.timestamp (t + GoTime.Microsecond * k) = Pg.timestamp t + GoTime.Microsecond * k.
Proof.
  unfold Pg.timestamp, GoTime.Time in *.
  change GoTime.Microsecond with 1000.
  replace (t + 1000 * k + 500) with (t + 500 + k * 1000) by lia.
  rewrite Z.div_add by lia.
  lia.
Qed.

Lemma Sub_small (t : GoTime.Time) (d : GoTime.Duration) :
  GoTime.minDuration <= d <= GoTime.maxDuration ->
  GoTime.Sub (t + d) t = d.
Proof.
  intros [Hlo Hhi]. unfold GoTime.Sub, GoTime.Time, GoTime.Duration in *.
  replace (t + d - t) with d by lia.
  destruct (Z.ltb_spec d GoTime.minDuration); [lia |].
  destruct (Z.ltb_spec GoTime.maxDuration d); [lia | reflexivity].
Qed.

Lemma round_div_exact (c : Z) (d : positive) :
  Pg.round_div (c * Zpos d) d = c.
Proof.
  unfold Pg.round_div.
  assert (Hd : 0 < Zpos d) by lia.
  rewrite Z.abs_mul, Z.sgn_mul.
  rewrite (Z.abs_eq (Zpos d)) by lia.
  rewrite (Z.sgn_pos (Zpos d)) by lia.
  rewrite Z.mul_1_r.
  replace (2 * (Z.abs c * Zpos d) + Zpos d)
    with (Zpos d + Z.abs c * (2 * Zpos d)) by ring.
  rewrite Z.div_add by lia.
  rewrite Z.div_small by lia.
  rewrite Z.add_0_l, Z.mul_comm.
  apply Z.abs_sgn.
Qed.

(** A value that already has [scale] decimal places goes through a
    [DECIMAL(p, scale)] column unchanged. *)
Lemma numeric_exact (scale : nat) (q : Q) (c : Z) :
  (q == c # Z.to_pos (10 ^ Z.of_nat scale))%Q ->
  (Pg.numeric scale q == q)%Q.
Proof.
  unfold Pg.numeric. set (m := Z.to_pos (10 ^ Z.of_nat scale)).
  intros Hq. unfold Qeq in *. cbn [Qnum Qden] in *.
  assert (E : Qnum q * Zpos m = c * Zpos (Qden q)) by lia.
  rewrite E, round_div_exact. lia.
Qed.

(** ** Lemmas on the store *)

Lemma statement_clear {A} (run : M (result A)) (w : World) :
  clear 1 (script w) = true ->
  statement run w = run (set_script (tl (script w)) w).
Proof.
  unfold statement. destruct (script w) as [| [msg |] rest]; cbn;
    intros H; try reflexivity; discriminate H.
Qed.

Lemma statement_inv {A} (run : M (result A)) (w : World) :
  (exists msg, clear 1 (script w) = false /\
     statement run w = (Err (DriverError msg), set_script (tl (script w)) w))
  \/ (clear 1 (script w) = true /\
      statement run w = run (set_script (tl (script w)) w)).
Proof.
  unfold statement. destruct (script w) as [| [msg |] rest]; cbn; eauto.
Qed.

Lemma clear_S (n : nat) (s : list (option string)) :
  clear (S n) s = clear 1 s && clear n (tl s).
Proof. destruct s as [| [msg |] rest]; reflexivity. Qed.

Lemma has_id_true (id : Z) (a : BlockAccount) : has_id id a = true <-> ID a = id.
Proof. unfold has_id. apply Z.eqb_eq. Qed.

Lemma find_app_fresh {A} (f : A -> bool) (l : list A) (x : A) :
  existsb f l = false ->
  find f (l ++ [x]) = if f x then Some x else None.
Proof.
  induction l as [| y l IH]; cbn; [reflexivity |].
  destruct (f y); cbn; [discriminate | exact IH].
Qed.

Lemma existsb_has_id (id : Z) (l : list BlockAccount) :
  existsb (has_id id) l = false <-> ~ In id (map ID l).
Proof.
  induction l as [| a l IH]; cbn.
  - split; [intros _ [] | reflexivity].
  - rewrite orb_false_iff, IH. unfold has_id. rewrite Z.eqb_neq. tauto.
Qed.

Lemma find_has_id_none (id : Z) (l : list BlockAccount) :
  find (has_id id) l = None <-> ~ In id (map ID l).
Proof.
  induction l as [| a l IH]; cbn.
  - split; [intros _ [] | reflexivity].
  - unfold has_id at 1. destruct (Z.eqb_spec (ID a) id) as [E | E].
    + split; [discriminate | intros H; exfalso; apply H; now left].
    + rewrite IH. tauto.
Qed.

Lemma find_has_id_unique (a : BlockAccount) (l : list BlockAccount) :
  NoDup (map ID l) -> In a l -> find (has_id (ID a)) l = Some a.
Proof.
  induction l as [| b l IH]; cbn; [intros _ [] |].
  intros Hnd [-> | Hin].
  - unfold has_id. now rewrite Z.eqb_refl.
  - inversion Hnd as [| ? ? Hb Hl]; subst.
    unfold has_id at 1. destruct (Z.eqb_spec (ID b) (ID a)) as [E | E].
    + exfalso. apply Hb. rewrite E. now apply in_map.
    + now apply IH.
Qed.

Lemma seq_ahead_fresh (w : World) :
  seq_ahead w = true ->
  existsb (has_id (block_accounts_id_seq w + 1)) (block_accounts w) = false.
Proof.
  unfold seq_ahead. intros H. apply existsb_has_id. intros Hin.
  apply in_map_iff in Hin as (a & Ha & Hin).
  rewrite forallb_forall in H. apply H in Hin. apply Z.leb_le in Hin. lia.
Qed.

Lemma filter_absent (id : Z) (l : list BlockAccount) :
  ~ In id (map ID l) ->
  filter (has_id id) l = [] /\ filter (fun a => negb (has_id id a)) l = l.
Proof.
  induction l as [| a l IH]; cbn; [intros _; split; reflexivity |].
  intros H. destruct IH as [IH1 IH2]; [tauto |].
  assert (E : has_id id a = false).
  { unfold has_id. apply Z.eqb_neq. intros E. apply H. now left. }
  rewrite E. cbn. rewrite IH2. split; [exact IH1 | reflexivity].
Qed.

Lemma filter_removes (id : Z) (l : list BlockAccount) :
  ~ In id (map ID (filter (fun a => negb (has_id id a)) l)).
Proof.
  intros H. apply in_map_iff in H as (a & Ha & Hin).
  apply filter_In in Hin as [_ Hin]. apply negb_true_iff in Hin.
  apply has_id_true in Ha. congruence.
Qed.

Lemma insert_returning_id_inv userID principal startDate endDate rate w res w1 :
  insert_returning_id userID principal startDate endDate rate w = (res, w1) ->
  (exists msg, res = Err (DriverError msg) /\
     block_accounts w1 = block_accounts w /\ clock w1 = clock w /\
     script w1 = tl (script w) /\
     block_accounts_id_seq w <= block_accounts_id_seq w1
       <= block_accounts_id_seq w + 1)
  \/ (res = Ok (block_accounts_id_seq w + 1) /\
      ~ present (block_accounts_id_seq w + 1) w /\
      w1 = after_insert w
             (inserted_row w userID principal startDate endDate rate)).
Proof.
  unfold insert_returning_id, statement, present.
  destruct (script w) as [| [msg |] rest] eqn:Hs; cbn;
    try (destruct (existsb _ (block_accounts w)) eqn:Hfresh);
    intros H; inversion H; subst; clear H; cbn;
    try (left; eexists; repeat split; cbn; try reflexivity; lia);
    right; (split; [reflexivity |]); (split; [now apply existsb_has_id |]);
    unfold after_insert, inserted_row; cbn; rewrite Hs; reflexivity.
Qed.

Lemma insert_returning_id_runs userID principal startDate endDate rate w :
  clear 1 (script w) = true ->
  seq_ahead w = true ->
  insert_returning_id userID principal startDate endDate rate w
  = (Ok (block_accounts_id_seq w + 1),
     after_insert w (inserted_row w userID principal startDate endDate rate)).
Proof.
  intros Hc Hs. apply seq_ahead_fresh in Hs.
  unfold insert_returning_id. rewrite statement_clear by exact Hc.
  cbn. rewrite Hs. reflexivity.
Qed.

Lemma select_by_id_inv id w res w1 :
  select_by_id id w = (res, w1) ->
  w1 = set_script (tl (script w)) w /\
  ((exists msg, res = Err (DriverError msg) /\ clear 1 (script w) = false)
   \/ (clear 1 (script w) = true /\
       match find (has_id id) (block_accounts w) with
       | Some row => res = Ok row
       | None => res = Err ErrNoRows
       end)).
Proof.
  unfold select_by_id, statement.
  destruct (script w) as [| [msg |] rest]; cbn;
    try (destruct (find (has_id id) (block_accounts w)));
    intros H; inversion H; subst; clear H; split; eauto.
Qed.

Lemma CreateBlockAccount_inv userID principal period w a w' :
  CreateBlockAccount userID principal period w = (Ok a, w') ->
  exists duration interestRate,
    period_terms period = Some (duration, interestRate) /\
    a = Some (created_row w userID principal duration interestRate) /\
    ~ present (block_accounts_id_seq w + 1) w /\
    w' = set_script (tl (tl (script w)))
           (after_insert w
              (created_row w userID principal duration interestRate)).
Proof.
  unfold CreateBlockAccount.
  destruct (period_terms period) as [[duration interestRate] |];
    [| discriminate].
  intros H. exists duration, interestRate. split; [reflexivity |].
  unfold bind, Now in H.
  destruct (insert_returning_id userID principal (clock w)
              (GoTime.Add (clock w) duration) interestRate w)
    as [r w1] eqn:Hins.
  apply insert_returning_id_inv in Hins
    as [(msg & -> & _) | (-> & Hfresh & ->)]; [discriminate H |].
  destruct (select_by_id (block_accounts_id_seq w + 1)
              (after_insert w
                 (inserted_row w userID principal (clock w)
                    (GoTime.Add (clock w) duration) interestRate)))
    as [r2 w2] eqn:Hsel.
  apply select_by_id_inv in Hsel as [-> [(msg & -> & _) | (_ & Hfind)]];
    [discriminate H |].
  cbn [block_accounts after_insert] in Hfind.
  rewrite find_app_fresh in Hfind by now apply existsb_has_id.
  unfold has_id in Hfind. cbn in Hfind. rewrite Z.eqb_refl in Hfind. subst r2.
  unfold ret in H. inversion H; subst; clear H.
  repeat split; [exact Hfresh].
Qed.

Lemma CreateBlockAccount_runs userID principal period duration interestRate w :
  period_terms period = Some (duration, interestRate) ->
  clear 2 (script w) = true ->
  seq_ahead w = true ->
  exists w',
    CreateBlockAccount userID principal period w
    = (Ok (Some (created_row w userID principal duration interestRate)), w').
Proof.
  intros Hp Hc Hs. unfold CreateBlockAccount. rewrite Hp.
  rewrite clear_S in Hc. apply andb_true_iff in Hc as [Hc1 Hc2].
  unfold bind, Now.
  rewrite insert_returning_id_runs by assumption.
  unfold select_by_id. rewrite statement_clear by exact Hc2. cbn.
  rewrite (find_app_fresh _ _ _ (seq_ahead_fresh w Hs)).
  unfold has_id. cbn. rewrite Z.eqb_refl. eexists. reflexivity.
Qed.

(** X14.  The earlier revision returns its inputs, not what the table
    holds: the record [Legacy.CreateBlockAccount] returns carries the
    principal and the start date as given, the one
    [Legacy.GetBlockAccount] reads back carries them as the columns keep
    them. *)
Lemma Legacy_create_then_get userID principal period w a w1 :
  Legacy.CreateBlockAccount userID principal period w = (Ok (Some a), w1) ->
  Legacy.ID a = block_accounts_id_seq w + 1 /\
  Legacy.UserID a = userID /\
  Legacy.Principal a = principal /\
  Legacy.StartDate a = clock w /\
  Legacy.Status a = "active" /\
  (clear 1 (script w1) = true ->
   exists b w2,
     Legacy.GetBlockAccount (Legacy.ID a) w1 = (Ok (Some b), w2) /\
     Legacy.ID b = Legacy.ID a /\
     Legacy.UserID b = userID /\
     Legacy.Principal b = Pg.numeric 2 principal /\
     Legacy.StartDate b = Pg.timestamp (clock w) /\
     Legacy.Status b = "active").
Proof.
  unfold Legacy.CreateBlockAccount.
  destruct (period_terms period) as [[duration rate] |]; [| discriminate].
  unfold bind, Now. intros H.
  destruct (insert_returning_id userID principal (clock w)
              (GoTime.Add (clock w) duration) rate w) as [r w'] eqn:Hins.
  apply insert_returning_id_inv in Hins
    as [(msg & -> & _) | (-> & Hfresh & ->)]; [discriminate H |].
  unfold ret in H. inversion H; subst; clear H. cbn.
  do 5 (split; [reflexivity |]).
  intros Hc. unfold Legacy.GetBlockAccount, bind, select_by_id.
  rewrite statement_clear by exact Hc. cbn.
  rewrite find_app_fresh by now apply existsb_has_id.
  unfold has_id. cbn. rewrite Z.eqb_refl.
  do 2 eexists. split; [reflexivity |]. repeat split.
Qed.

(** ** [ORDER BY created_at DESC] *)

Lemma insert_desc_perm (a : BlockAccount) (l : list BlockAccount) :
  Permutation (insert_desc a l) (a :: l).
Proof.
  induction l as [| b l IH]; cbn; [reflexivity |].
  destruct (CreatedAt b <=? CreatedAt a); [reflexivity |].
  rewrite IH. apply perm_swap.
Qed.

Lemma order_by_created_at_desc_perm (l : list BlockAccount) :
  Permutation (order_by_created_at_desc l) l.
Proof.
  induction l as [| a l IH]; cbn; [reflexivity |].
  rewrite insert_desc_perm. now constructor.
Qed.

Lemma insert_desc_sorted (a : BlockAccount) (l : list BlockAccount) :
  StronglySorted newer_first l -> StronglySorted newer_first (insert_desc a l).
Proof.
  induction l as [| b l IH]; cbn; intros Hs.
  - constructor; constructor.
  - inversion Hs as [| ? ? Hl Hb]; subst.
    destruct (Z.leb_spec (CreatedAt b) (CreatedAt a)) as [Hle | Hlt].
    + constructor; [exact Hs |]. constructor; [exact Hle |].
      eapply Forall_impl; [| exact Hb]. unfold newer_first. cbn. lia.
    + constructor; [now apply IH |].
      eapply Permutation_Forall; [symmetry; apply insert_desc_perm |].
      constructor; [unfold newer_first; lia | exact Hb].
Qed.

Lemma order_by_created_at_desc_sorted (l : list BlockAccount) :
  StronglySorted newer_first (order_by_created_at_desc l).
Proof.
  induction l as [| a l IH]; cbn; [constructor |].
  now apply insert_desc_sorted.
Qed.

(** ** Lemmas on the service *)

Lemma GetBlockAccount_clear (id : Z) (w : World) :
  clear 1 (script w) = true ->
  GetBlockAccount id w
  = (Ok (find (has_id id) (block_accounts w)), set_script (tl (script w)) w).
Proof.
  intros Hc. unfold GetBlockAccount, bind, select_by_id.
  rewrite statement_clear by exact Hc. cbn.
  destruct (find (has_id id) (block_accounts w)); reflexivity.
Qed.

Lemma GetBlockAccount_world (id : Z) (w : World) :
  snd (GetBlockAccount id w) = set_script (tl (script w)) w.
Proof.
  unfold GetBlockAccount, bind.
  destruct (select_by_id id w) as [r w1] eqn:E.
  apply select_by_id_inv in E as [-> _].
  destruct r as [a | []]; reflexivity.
Qed.

Lemma GetUserBlockAccounts_clear (userID : Z) (w : World) :
  clear 1 (script w) = true ->
  GetUserBlockAccounts userID w
  = (Ok (order_by_created_at_desc
           (filter (has_user userID) (block_accounts w))),
     set_script (tl (script w)) w).
Proof.
  intros Hc. unfold GetUserBlockAccounts, bind, select_by_user.
  rewrite statement_clear by exact Hc. reflexivity.
Qed.

Lemma GetUserBlockAccounts_world (userID : Z) (w : World) :
  snd (GetUserBlockAccounts userID w) = set_script (tl (script w)) w.
Proof.
  unfold GetUserBlockAccounts, bind, select_by_user, statement.
  destruct (script w) as [| [msg |] rest]; reflexivity.
Qed.

Lemma DeleteBlockAccount_clear (id : Z) (w : World) :
  clear 1 (script w) = true ->
  DeleteBlockAccount id w
  = ((if existsb (has_id id) (block_accounts w) then None else Some ErrNoRows),
     set_rows (filter (fun a => negb (has_id id a)) (block_accounts w))
       (set_script (tl (script w)) w)).
Proof.
  intros Hc. unfold DeleteBlockAccount, bind, delete_by_id.
  rewrite statement_clear by exact Hc. cbn.
  induction (block_accounts w) as [| a l IH]; [reflexivity |].
  cbn. destruct (has_id id a); cbn; [reflexivity |].
  destruct (existsb (has_id id) l);
    destruct (Z.of_nat (length (filter (has_id id) l)) =? 0) eqn:E;
    cbn in IH |- *; try reflexivity; inversion IH.
Qed.

Lemma DeleteBlockAccount_scripted (id : Z) (w : World) (msg : string) rest :
  script w = Some msg :: rest ->
  DeleteBlockAccount id w = (Some (DriverError msg), set_script rest w).
Proof.
  intros Hs. unfold DeleteBlockAccount, bind, delete_by_id, statement.
  rewrite Hs. reflexivity.
Qed.

(** The three ways a call can end: scripted failure, or one of the two
    outcomes of the statement. *)
Lemma DeleteBlockAccount_inv (id : Z) (w : World) (err : option error) w1 :
  DeleteBlockAccount id w = (err, w1) ->
  (exists msg, err = Some (DriverError msg) /\ w1 = set_script (tl (script w)) w)
  \/ (clear 1 (script w) = true /\
      err = (if existsb (has_id id) (block_accounts w)
             then None else Some ErrNoRows) /\
      w1 = set_rows (filter (fun a => negb (has_id id a)) (block_accounts w))
             (set_script (tl (script w)) w)).
Proof.
  intros H. destruct (clear 1 (script w)) eqn:Hc.
  - right. rewrite DeleteBlockAccount_clear in H by exact Hc.
    inversion H; subst. auto.
  - left. destruct (script w) as [| [msg |] rest] eqn:Hs; try discriminate Hc.
    rewrite (DeleteBlockAccount_scripted id w msg rest Hs) in H.
    inversion H; subst. eauto.
Qed.

(** What a call of [CreateBlockAccount] does to the world: either the
    table is as before, or exactly the created row has been appended. *)
Lemma CreateBlockAccount_effect userID principal period w :
  let w' := snd (CreateBlockAccount userID principal period w) in
  clock w' = clock w /\
  ((block_accounts w' = block_accounts w /\
    block_accounts_id_seq w <= block_accounts_id_seq w'
      <= block_accounts_id_seq w + 1)
   \/ exists duration rate,
        period_terms period = Some (duration, rate) /\
        ~ present (block_accounts_id_seq w + 1) w /\
        block_accounts w'
        = (block_accounts w
             ++ [created_row w userID principal duration rate])%list /\
        block_accounts_id_seq w' = block_accounts_id_seq w + 1).
Proof.
  unfold CreateBlockAccount.
  destruct (period_terms period) as [[duration rate] |]; cbn;
    [| split; [reflexivity | left; split; [reflexivity | lia]]].
  unfold bind, Now.
  destruct (insert_returning_id userID principal (clock w)
              (GoTime.Add (clock w) duration) rate w) as [r w1] eqn:Hins.
  apply insert_returning_id_inv in Hins
    as [(msg & -> & Hrows & Hclock & _ & Hseq) | (-> & Hfresh & ->)].
  - cbn. split; [exact Hclock | left; split; assumption].
  - destruct (select_by_id (block_accounts_id_seq w + 1)
                (after_insert w
                   (inserted_row w userID principal (clock w)
                      (GoTime.Add (clock w) duration) rate)))
      as [r2 w2] eqn:Hsel.
    apply select_by_id_inv in Hsel as [-> _].
    assert (Hw : forall x : result (option BlockAccount),
      snd (x, set_script
                (tl (script (after_insert w
                   (inserted_row w userID principal (clock w)
                      (GoTime.Add (clock w) duration) rate))))
                (after_insert w
                   (inserted_row w userID principal (clock w)
                      (GoTime.Add (clock w) duration) rate)))
      = set_script (tl (tl (script w)))
          (after_insert w (created_row w userID principal duration rate)))
      by reflexivity.
    destruct r2 as [a | e]; unfold ret; rewrite Hw; cbn;
      (split; [reflexivity |]); right; exists duration, rate; auto.
Qed.

(** ** What a request does to the table *)

Lemma ServeHTTP_change (r : Request) (w : World) :
  let w' := snd (ServeHTTP r w) in
  table_change w w' r /\
  clock w' = clock w /\
  block_accounts_id_seq w <= block_accounts_id_seq w'.
Proof.
  destruct r as [[req |] | idStr | userIDStr | idStr];
    unfold ServeHTTP, ServiceMiddleware; cbn beta iota.
  - unfold createBlockAccountHandler.
    destruct (validateCreateRequest req) eqn:Hv;
      [cbn; repeat split; [now apply Unchanged | lia] |].
    unfold bind. cbn [svcCreateBlockAccount service].
    pose proof (CreateBlockAccount_effect
                  (reqUserID req) (reqPrincipal req) (reqPeriod req) w) as H.
    destruct (CreateBlockAccount (reqUserID req) (reqPrincipal req)
                (reqPeriod req) w) as [res w1].
    cbn [snd] in H.
    assert (Hsnd : forall x y : Response,
              snd (match res with Ok _ => ret x | Err _ => ret y end w1) = w1)
      by (intros; destruct res; reflexivity).
    destruct H as [Hclock [[Hrows Hseq] | (d & rt & _ & Hfresh & Hrows & Hseq)]].
    + destruct res; cbn; repeat split; try assumption;
        try (now apply Unchanged); lia.
    + destruct res; cbn; repeat split; try assumption; try lia;
        eapply Inserted with (a := created_row w _ _ d rt);
        try eassumption; try reflexivity; cbn; auto.
  - cbn. repeat split; [now apply Unchanged | lia].
  - unfold getBlockAccountHandler.
    destruct (Strconv.Atoi idStr) as [id |];
      [| cbn; repeat split; [now apply Unchanged | lia]].
    unfold bind. cbn [svcGetBlockAccount service].
    pose proof (GetBlockAccount_world id w) as H.
    destruct (GetBlockAccount id w) as [res w1]. cbn [snd] in H. subst w1.
    destruct res as [[a |] | e]; cbn; repeat split;
      try (now apply Unchanged); lia.
  - unfold getUserBlockAccountsHandler.
    destruct (Strconv.Atoi userIDStr) as [userID |];
      [| cbn; repeat split; [now apply Unchanged | lia]].
    unfold bind. cbn [svcGetUserBlockAccounts service].
    pose proof (GetUserBlockAccounts_world userID w) as H.
    destruct (GetUserBlockAccounts userID w) as [res w1]. cbn [snd] in H.
    subst w1.
    destruct res as [l | e]; cbn; repeat split;
      try (now apply Unchanged); lia.
  - unfold deleteBlockAccountHandler.
    destruct (Strconv.Atoi idStr) as [id |] eqn:Hid;
      [| cbn; repeat split; [now apply Unchanged | lia]].
    unfold bind. cbn [svcDeleteBlockAccount service].
    destruct (DeleteBlockAccount id w) as [err w1] eqn:Hdel.
    apply DeleteBlockAccount_inv in Hdel
      as [(msg & -> & ->) | (_ & -> & ->)].
    + cbn. repeat split; [now apply Unchanged | lia].
    + destruct (existsb (has_id id) (block_accounts w)); cbn;
        repeat split; try lia; now apply Removed with (id := id).
Qed.

(** ** Invariants of the running system *)

Lemma NoDup_snoc {A} (l : list A) (x : A) :
  NoDup l -> ~ In x l -> NoDup (l ++ [x]).
Proof.
  induction l as [| y l IH]; cbn; intros Hnd Hx.
  - constructor; [intros [] | constructor].
  - inversion Hnd as [| ? ? Hy Hl]; subst. constructor.
    + rewrite in_app_iff. cbn. intros [H | [H | []]]; [tauto |].
      apply Hx. now left.
    + apply IH; [exact Hl | tauto].
Qed.

(** Removing rows keeps the ids distinct. *)
Lemma unique_ids_filter (keep : BlockAccount -> bool) (rows : list BlockAccount) :
  NoDup (map ID rows) -> NoDup (map ID (filter keep rows)).
Proof.
  intros Hrows. induction rows as [| row rows IH]; cbn; [constructor |].
  apply NoDup_cons_iff in Hrows as [Hrow Hrest].
  destruct (keep row); cbn; [| now apply IH].
  apply NoDup_cons; [| now apply IH].
  rewrite in_map_iff. intros (other & Hsame & Hin).
  apply filter_In in Hin as [Hin _].
  apply Hrow. rewrite <- Hsame. now apply in_map.
Qed.

Lemma seq_ahead_Forall (w : World) :
  seq_ahead w = true <->
  Forall (fun a => ID a <= block_accounts_id_seq w) (block_accounts w).
Proof.
  unfold seq_ahead. rewrite forallb_forall, Forall_forall.
  split; intros H a Ha; apply Z.leb_le; auto.
Qed.

Lemma initial_consistent : consistent initial.
Proof. repeat split; try constructor. discriminate. Qed.

Lemma step_consistent (w : World) (e : Event) :
  consistent w -> consistent (step w e).
Proof.
  intros (Hseq & Hnd & Hact & Hpos & Hids).
  destruct e as [r | d | s]; cbn [step];
    [| repeat split; assumption | repeat split; assumption].
  apply seq_ahead_Forall in Hseq. unfold consistent, unique_ids in *.
  rewrite seq_ahead_Forall.
  destruct (ServeHTTP_change r w) as (Hch & _ & Hmono).
  cbv zeta in Hch, Hmono. revert Hch Hmono.
  generalize (snd (ServeHTTP r w)). intros w' Hch Hmono.
  assert (Hle : Forall (fun a => ID a <= block_accounts_id_seq w')
                  (block_accounts w)).
  { eapply Forall_impl; [| exact Hseq]. cbn. intros a Ha. lia. }
  destruct Hch
    as [r0 Hrows | req a _ Hfresh Hid Hnext _ Hst Hrows | idStr id _ Hrows];
    rewrite Hrows.
  - repeat split; auto; lia.
  - repeat split; try lia.
    + apply Forall_app. split; [exact Hle |]. constructor; [lia | constructor].
    + rewrite map_app. now apply NoDup_snoc.
    + apply Forall_app. split; [exact Hact |]. now constructor.
    + apply Forall_app. split; [exact Hids |]. constructor; [lia | constructor].
  - repeat split; try lia.
    + rewrite Forall_forall in *. intros a Ha. apply Hle.
      now apply filter_In in Ha as [Ha _].
    + now apply unique_ids_filter.
    + rewrite Forall_forall in *. intros a Ha. apply Hact.
      now apply filter_In in Ha as [Ha _].
    + rewrite Forall_forall in *. intros a Ha. apply Hids.
      now apply filter_In in Ha as [Ha _].
Qed.

Lemma run_consistent (es : list Event) (w : World) :
  consistent w -> consistent (run es w).
Proof.
  revert w. induction es as [| e es IH]; cbn; intros w Hw; [exact Hw |].
  apply IH. now apply step_consistent.
Qed.

Lemma reachable_consistent (w : World) : reachable w -> consistent w.
Proof. intros [es ->]. apply run_consistent, initial_consistent. Qed.

(** ** The period table of the code against the Rate Table *)

Ltac split_period p :=
  repeat match goal with
  | |- context [String.eqb ?a ?b] =>
      destruct (String.eqb_spec a b); [subst p |]
  | H : context [String.eqb ?a ?b] |- _ =>
      destruct (String.eqb_spec a b); [subst p |]
  end.

Lemma period_terms_resolve (period : string) (days : Z) (rate : Q) :
  RateTable.resolve period = Some (days, rate) ->
  period_terms period = Some (days * GoTime.Day, rate).
Proof.
  unfold RateTable.resolve, period_terms. intros H.
  split_period period; inversion H; subst; reflexivity.
Qed.

Lemma isValidPeriod_codes (period : string) :
  isValidPeriod period = true <-> In period RateTable.codes.
Proof.
  unfold isValidPeriod, RateTable.codes, map_index. cbn [In].
  split_period period; split; intros H; try reflexivity; try discriminate;
    try tauto; intuition congruence.
Qed.

Lemma isValidPeriod_resolve (period : string) :
  isValidPeriod period = true ->
  exists days rate, RateTable.resolve period = Some (days, rate).
Proof.
  intros H. apply isValidPeriod_codes in H. unfold RateTable.codes in H.
  cbn [In] in H. unfold RateTable.resolve.
  destruct H as [<- | [<- | [<- | [<- | []]]]]; cbn; eauto.
Qed.

Lemma rate_in_column (period : string) (days : Z) (rate : Q) :
  RateTable.resolve period = Some (days, rate) ->
  (Pg.numeric 4 rate == rate)%Q /\
  GoTime.minDuration <= days * GoTime.Day <= GoTime.maxDuration /\
  exists k, days * GoTime.Day = GoTime.Microsecond * k.
Proof.
  unfold RateTable.resolve. intros H.
  assert (Hk : exists k, days * GoTime.Day = GoTime.Microsecond * k).
  { exists (days * 86400000000).
    change GoTime.Day with 86400000000000.
    change GoTime.Microsecond with 1000. lia. }
  split_period period; inversion H; subst;
    (split; [reflexivity |]);
    (split; [split; discriminate | exact Hk]).
Qed.

(** The dates and the rate of a row that [CreateBlockAccount] wrote. *)
Lemma created_row_terms w userID principal period days rate :
  RateTable.resolve period = Some (days, rate) ->
  let a := created_row w userID principal (days * GoTime.Day) rate in
  GoTime.Sub (EndDate a) (StartDate a) = days * GoTime.Day /\
  EndDate a = GoTime.Add (StartDate a) (days * GoTime.Day) /\
  (InterestRate a == rate)%Q.
Proof.
  intros H a. apply rate_in_column in H as (Hrate & Hrange & k & Hk).
  unfold a, created_row, inserted_row, GoTime.Add. cbn [EndDate StartDate InterestRate].
  rewrite Hk, timestamp_shift, <- Hk.
  repeat split; [now apply Sub_small | exact Hrate].
Qed.

(** * Theorems *)

(** C1.  For each of the four period codes, [CreateBlockAccount] yields an
    account whose end date lies the fixed duration after its start date (3m:
    90 days, 6m: 180 days, 1y: 365 days, 3y: 1095 days) and whose interest
    rate is the fixed rate of the period (0.02, 0.035, 0.05, 0.10).  The
    call does yield an account when its two statements run, and every
    account it yields has these terms. *)
Theorem CreateBlockAccount_period_terms :
  forall (period : string) (days : Z) (rate : Q)
         (userID : Z) (principal : Q) (w : World),
    RateTable.resolve period = Some (days, rate) ->
    (clear 2 (script w) = true -> seq_ahead w = true ->
     exists a w',
       CreateBlockAccount userID principal period w = (Ok (Some a), w')) /\
    (forall a w',
       CreateBlockAccount userID principal period w = (Ok (Some a), w') ->
       GoTime.Sub (EndDate a) (StartDate a) = days * GoTime.Day /\
       (InterestRate a == rate)%Q).
Proof.
  intros period days rate userID principal w Hres.
  pose proof (period_terms_resolve _ _ _ Hres) as Hterms. split.
  - intros Hc Hs.
    destruct (CreateBlockAccount_runs userID principal _ _ _ w Hterms Hc Hs)
      as [w' E].
    eauto.
  - intros a w' E.
    apply CreateBlockAccount_inv in E as (d & r & Hd & Ha & _).
    rewrite Hterms in Hd. inversion Hd; subst d r. inversion Ha; subst a.
    destruct (created_row_terms w userID principal _ _ _ Hres) as (H1 & _ & H3).
    split; assumption.
Qed.

Lemma CreateBlockAccount_period_terms_witness :
  RateTable.resolve "1y" = Some (365, 0.05%Q) /\
  exists a w',
    CreateBlockAccount 1 5000%Q "1y" initial = (Ok (Some a), w') /\
    GoTime.Sub (EndDate a) (StartDate a) = 365 * GoTime.Day /\
    (InterestRate a == 0.05)%Q.
Proof.
  split; [reflexivity |].
  destruct (CreateBlockAccount_period_terms "1y" 365 0.05%Q 1 5000%Q initial
              eq_refl) as [Hruns Hterms].
  destruct (Hruns eq_refl eq_refl) as (a & w' & E).
  exists a, w'. split; [exact E | exact (Hterms a w' E)].
Defined.

(** C2.  A create request whose principal is not positive, whose user id is
    not positive, or whose period is none of 3m, 6m, 1y, 3y is answered with
    status 400 by the validation step: the service is never called and the
    world, the table included, is left as it was.  This holds whatever
    service the handler finds in its context. *)
Theorem createBlockAccountHandler_rejects_invalid :
  forall (svc : BlockAccountService) (req : CreateAccountRequest) (w : World),
    (reqPrincipal req <= 0)%Q \/ reqUserID req <= 0 \/
    ~ In (reqPeriod req) RateTable.codes ->
    exists msg,
      validateCreateRequest req = Some (Errorf msg) /\
      createBlockAccountHandler (Some svc) (Some req) w
      = (writeError 400 msg, w) /\
      ServeHTTP (POST_block_account (Some req)) w = (writeError 400 msg, w).
Proof.
  intros svc req w H.
  assert (Hv : exists msg, validateCreateRequest req = Some (Errorf msg)).
  { unfold validateCreateRequest.
    destruct (Z.leb_spec (reqUserID req) 0) as [Hu | Hu]; [eauto |].
    destruct (Qle_bool (reqPrincipal req) 0) eqn:Hp; [eauto |].
    destruct (isValidPeriod (reqPeriod req)) eqn:Hper; cbn; [| eauto].
    exfalso. destruct H as [H | [H | H]].
    - apply Qle_bool_iff in H. congruence.
    - lia.
    - apply H. now apply isValidPeriod_codes. }
  destruct Hv as [msg Hv]. exists msg. split; [exact Hv |].
  unfold ServeHTTP, ServiceMiddleware, createBlockAccountHandler.
  rewrite Hv. split; reflexivity.
Qed.

Lemma createBlockAccountHandler_rejects_invalid_witness :
  let req := {| reqUserID := 1; reqPrincipal := 5000%Q; reqPeriod := "10y" |} in
  ~ In (reqPeriod req) RateTable.codes /\
  exists msg,
    validateCreateRequest req = Some (Errorf msg) /\
    createBlockAccountHandler (Some service) (Some req) initial
    = (writeError 400 msg, initial) /\
    ServeHTTP (POST_block_account (Some req)) initial
    = (writeError 400 msg, initial).
Proof.
  intros req.
  assert (Hout : ~ In (reqPeriod req) RateTable.codes).
  { cbn. intros [H | [H | [H | [H | []]]]]; discriminate H. }
  split; [exact Hout |].
  exact (createBlockAccountHandler_rejects_invalid service req initial
           (or_intror (or_intror Hout))).
Defined.

Lemma validateCreateRequest_nil (req : CreateAccountRequest) :
  validateCreateRequest req = None <->
  0 < reqUserID req /\ (0 < reqPrincipal req)%Q /\
  isValidPeriod (reqPeriod req) = true.
Proof.
  unfold validateCreateRequest.
  destruct (Z.leb_spec (reqUserID req) 0) as [Hu | Hu].
  { split; [discriminate | intros [H _]; lia]. }
  destruct (Qle_bool (reqPrincipal req) 0) eqn:Hp.
  { apply Qle_bool_iff in Hp. split; [discriminate |].
    intros (_ & H & _). exfalso. exact (Qlt_not_le _ _ H Hp). }
  assert (Hpos : (0 < reqPrincipal req)%Q).
  { apply Qnot_le_lt. intros H. apply Qle_bool_iff in H. congruence. }
  destruct (isValidPeriod (reqPeriod req)); cbn.
  - split; [auto | reflexivity].
  - split; [discriminate | intros (_ & _ & H); discriminate H].
Qed.

(** C3, as the code has it.  For a create request that passed validation
    and whose statements run, [CreateBlockAccount] returns the row it
    persisted, carrying the id drawn from the sequence and the timestamps
    the table filled in, and [GetBlockAccount] with that id returns this
    very record.  Its user id is the input's; its principal is the input
    at the two decimal places of the [DECIMAL(15,2)] column, hence the
    input itself whenever that has at most two decimals; its start date is
    the creation instant at the microsecond precision of the column, its
    end date the start date plus the duration of the period, its rate the
    rate of the period and its status "active". *)
Theorem create_then_get :
  forall (req : CreateAccountRequest) (w : World),
    validateCreateRequest req = None ->
    clear 3 (script w) = true ->
    seq_ahead w = true ->
    exists a w1 w2 days rate,
      CreateBlockAccount (reqUserID req) (reqPrincipal req) (reqPeriod req) w
      = (Ok (Some a), w1) /\
      In a (block_accounts w1) /\
      ID a = block_accounts_id_seq w + 1 /\
      ~ present (ID a) w /\
      CreatedAt a = Pg.timestamp (clock w) /\
      UpdatedAt a = Pg.timestamp (clock w) /\
      GetBlockAccount (ID a) w1 = (Ok (Some a), w2) /\
      UserID a = reqUserID req /\
      Principal a = Pg.numeric 2 (reqPrincipal req) /\
      (forall cents : Z,
         (reqPrincipal req == cents # 100)%Q ->
         (Principal a == reqPrincipal req)%Q) /\
      RateTable.resolve (reqPeriod req) = Some (days, rate) /\
      StartDate a = Pg.timestamp (clock w) /\
      EndDate a = GoTime.Add (StartDate a) (days * GoTime.Day) /\
      (InterestRate a == rate)%Q /\
      Status a = "active".
Proof.
  intros req w Hv Hc Hs.
  apply validateCreateRequest_nil in Hv as (_ & _ & Hper).
  destruct (isValidPeriod_resolve _ Hper) as (days & rate & Hres).
  pose proof (period_terms_resolve _ _ _ Hres) as Hterms.
  rewrite clear_S in Hc. apply andb_true_iff in Hc as [Hc1 Hc].
  rewrite clear_S in Hc. apply andb_true_iff in Hc as [Hc2 Hc3].
  assert (Hc12 : clear 2 (script w) = true).
  { rewrite clear_S, Hc1. cbn [andb]. rewrite clear_S, Hc2. reflexivity. }
  destruct (CreateBlockAccount_runs (reqUserID req) (reqPrincipal req)
              _ _ _ w Hterms Hc12 Hs) as [w1 Hcreate].
  set (a := created_row w (reqUserID req) (reqPrincipal req)
              (days * GoTime.Day) rate) in *.
  pose proof Hcreate as Hinv.
  apply CreateBlockAccount_inv in Hinv as (d & r & Hd & _ & Hfresh & Hw1).
  rewrite Hterms in Hd. inversion Hd; subst d r. clear Hd.
  assert (Hrows : block_accounts w1 = (block_accounts w ++ [a])%list)
    by (rewrite Hw1; reflexivity).
  assert (Hscript : script w1 = tl (tl (script w))) by (rewrite Hw1; reflexivity).
  destruct (created_row_terms w (reqUserID req) (reqPrincipal req) _ _ _ Hres)
    as (_ & Hend & Hrate).
  exists a, w1, (set_script (tl (script w1)) w1), days, rate.
  repeat match goal with |- _ /\ _ => split end;
    try reflexivity; try assumption.
  - rewrite Hrows. apply in_or_app. right. now left.
  - rewrite GetBlockAccount_clear by (rewrite Hscript; exact Hc3).
    rewrite Hrows, find_app_fresh by now apply existsb_has_id.
    unfold has_id. rewrite Z.eqb_refl. reflexivity.
  - intros cents Hcents. cbn [Principal a created_row inserted_row].
    now apply (numeric_exact 2 _ cents).
Qed.

Lemma create_then_get_witness :
  let req := {| reqUserID := 1; reqPrincipal := 5000%Q; reqPeriod := "1y" |} in
  validateCreateRequest req = None /\
  exists a w1 w2,
    CreateBlockAccount 1 5000%Q "1y" initial = (Ok (Some a), w1) /\
    GetBlockAccount (ID a) w1 = (Ok (Some a), w2) /\
    ID a = 1 /\ UserID a = 1 /\ (Principal a == 5000)%Q /\
    EndDate a = GoTime.Add (StartDate a) (365 * GoTime.Day) /\
    (InterestRate a == 0.05)%Q /\ Status a = "active".
Proof.
  intros req. split; [reflexivity |].
  destruct (create_then_get req initial eq_refl eq_refl eq_refl)
    as (a & w1 & w2 & days & rate & Hcreate & _ & Hid & _ & _ & _ & Hget
        & Huser & _ & Hprin & Hres & _ & Hend & Hrate & Hst).
  inversion Hres; subst days rate.
  exists a, w1, w2.
  repeat match goal with |- _ /\ _ => split end; try assumption.
  exact (Hprin 500000 eq_refl).
Defined.

(** C3, as the specification states it, fails: a principal with a third
    decimal place passes validation, is created, and comes back from
    [GetBlockAccount] with a different value. *)
Lemma create_then_get_principal_counterexample :
  let req := {| reqUserID := 1; reqPrincipal := 1234.567%Q; reqPeriod := "1y" |} in
  validateCreateRequest req = None /\
  exists a w1 b w2,
    CreateBlockAccount (reqUserID req) (reqPrincipal req) (reqPeriod req) initial
    = (Ok (Some a), w1) /\
    GetBlockAccount (ID a) w1 = (Ok (Some b), w2) /\
    (Principal b == 1234.57)%Q /\
    ~ (Principal b == reqPrincipal req)%Q.
Proof.
  intros req. split; [reflexivity |].
  do 4 eexists. split; [vm_compute; reflexivity |].
  split; [vm_compute; reflexivity |].
  split; [reflexivity | discriminate].
Qed.

Lemma one_account_unique : unique_ids one_account.
Proof. repeat constructor. intros []. Qed.

(** C4.  When its statement runs, [GetBlockAccount] answers an id that no
    row carries with the not-found signal [(nil, nil)], not with an error,
    and the handler turns that into status 404; for the id of a stored
    row it returns that row and the handler answers 200 with the row in
    the envelope. *)
Theorem get_absent_or_present :
  forall (idStr : string) (id : Z) (w : World),
    Strconv.Atoi idStr = Some id ->
    clear 1 (script w) = true ->
    (~ present id w ->
       GetBlockAccount id w = (Ok None, set_script (tl (script w)) w) /\
       ServeHTTP (GET_block_account idStr) w
       = (writeError 404 "Block account not found",
          set_script (tl (script w)) w)) /\
    (forall a : BlockAccount,
       unique_ids w -> In a (block_accounts w) -> ID a = id ->
       GetBlockAccount id w = (Ok (Some a), set_script (tl (script w)) w) /\
       ServeHTTP (GET_block_account idStr) w
       = (writeSuccess (DataAccount (Some a))
            "Block account retrieved successfully",
          set_script (tl (script w)) w) /\
       StatusCode (fst (ServeHTTP (GET_block_account idStr) w)) = 200).
Proof.
  intros idStr id w Hid Hc.
  pose proof (GetBlockAccount_clear id w Hc) as Hget.
  unfold ServeHTTP, ServiceMiddleware, getBlockAccountHandler, bind.
  rewrite Hid. cbn [svcGetBlockAccount service]. rewrite Hget. split.
  - intros Habs. apply find_has_id_none in Habs. rewrite Habs.
    split; reflexivity.
  - intros a Hnd Hin <-. rewrite (find_has_id_unique a _ Hnd Hin).
    repeat split.
Qed.

Lemma get_absent_or_present_witness :
  (GetBlockAccount 2 one_account
   = (Ok None, set_script (tl (script one_account)) one_account) /\
   StatusCode (fst (ServeHTTP (GET_block_account "2") one_account)) = 404) /\
  exists a,
    In a (block_accounts one_account) /\ ID a = 1 /\
    GetBlockAccount 1 one_account
    = (Ok (Some a), set_script (tl (script one_account)) one_account) /\
    StatusCode (fst (ServeHTTP (GET_block_account "1") one_account)) = 200.
Proof.
  split.
  - destruct (get_absent_or_present "2" 2 one_account eq_refl eq_refl)
      as [Habsent _].
    destruct Habsent as [Hget Hserve].
    + cbn. intros [H | []]. discriminate H.
    + split; [exact Hget | rewrite Hserve; reflexivity].
  - destruct (get_absent_or_present "1" 1 one_account eq_refl eq_refl)
      as [_ Hpresent].
    eexists. split; [left; reflexivity |]. split; [reflexivity |].
    destruct (Hpresent _ one_account_unique (or_introl eq_refl) eq_refl)
      as (Hget & _ & Hstatus).
    split; [exact Hget | exact Hstatus].
Defined.

(** C5.  When its statement runs, [GetUserBlockAccounts] returns exactly
    the rows owned by the user, newest [created_at] first, the handler
    answers 200 with that list, and the list is empty when the user owns
    no row. *)
Theorem get_by_user_newest_first :
  forall (userIDStr : string) (userID : Z) (w : World),
    Strconv.Atoi userIDStr = Some userID ->
    clear 1 (script w) = true ->
    exists l : list BlockAccount,
      GetUserBlockAccounts userID w = (Ok l, set_script (tl (script w)) w) /\
      ServeHTTP (GET_user_block_accounts userIDStr) w
      = (writeSuccess (DataAccounts l)
           "User block accounts retrieved successfully",
         set_script (tl (script w)) w) /\
      StatusCode (fst (ServeHTTP (GET_user_block_accounts userIDStr) w)) = 200 /\
      Permutation l (filter (has_user userID) (block_accounts w)) /\
      (forall a, In a l <-> In a (block_accounts w) /\ UserID a = userID) /\
      StronglySorted newer_first l /\
      ((forall a, In a (block_accounts w) -> UserID a <> userID) -> l = []).
Proof.
  intros userIDStr userID w Hid Hc.
  pose proof (GetUserBlockAccounts_clear userID w Hc) as Hget.
  set (l := order_by_created_at_desc
              (filter (has_user userID) (block_accounts w))) in *.
  assert (Hperm : Permutation l (filter (has_user userID) (block_accounts w)))
    by apply order_by_created_at_desc_perm.
  assert (Hin : forall a, In a l <-> In a (block_accounts w) /\ UserID a = userID).
  { intros a. split.
    - intros H. apply (Permutation_in _ Hperm) in H.
      apply filter_In in H as [H1 H2]. split; [exact H1 |].
      now apply Z.eqb_eq in H2.
    - intros [H1 H2]. apply (Permutation_in _ (Permutation_sym Hperm)).
      apply filter_In. split; [exact H1 |]. now apply Z.eqb_eq. }
  exists l.
  unfold ServeHTTP, ServiceMiddleware, getUserBlockAccountsHandler, bind.
  rewrite Hid. cbn [svcGetUserBlockAccounts service]. rewrite Hget.
  repeat match goal with |- _ /\ _ => split end;
    try reflexivity; try assumption.
  - apply order_by_created_at_desc_sorted.
  - intros Hnone. destruct l as [| a l']; [reflexivity |]. exfalso.
    destruct (proj1 (Hin a) (or_introl eq_refl)) as [H1 H2].
    exact (Hnone a H1 H2).
Qed.

Lemma get_by_user_newest_first_witness :
  exists l : list BlockAccount,
    GetUserBlockAccounts 8 one_account
    = (Ok l, set_script (tl (script one_account)) one_account) /\
    StatusCode (fst (ServeHTTP (GET_user_block_accounts "8") one_account)) = 200 /\
    l = [].
Proof.
  destruct (get_by_user_newest_first "8" 8 one_account eq_refl eq_refl)
    as (l & Hget & _ & Hstatus & _ & _ & _ & Hempty).
  exists l. split; [exact Hget |]. split; [exact Hstatus |].
  apply Hempty. cbn. intros a [<- | []]. discriminate.
Defined.

(** C6.  [DeleteBlockAccount] on an id that no row carries never returns
    [nil] and leaves the table, its sequence and the clock as they were,
    whether or not its statement runs; when the statement runs it fails
    with [sql.ErrNoRows], and the handler answers 404. *)
Theorem delete_absent_not_found :
  forall (idStr : string) (id : Z) (w : World),
    Strconv.Atoi idStr = Some id ->
    ~ present id w ->
    snd (DeleteBlockAccount id w) = set_script (tl (script w)) w /\
    snd (ServeHTTP (DELETE_block_account idStr) w)
    = set_script (tl (script w)) w /\
    block_accounts (snd (ServeHTTP (DELETE_block_account idStr) w))
    = block_accounts w /\
    fst (DeleteBlockAccount id w) <> None /\
    (clear 1 (script w) = true ->
       DeleteBlockAccount id w
       = (Some ErrNoRows, set_script (tl (script w)) w) /\
       ServeHTTP (DELETE_block_account idStr) w
       = (writeError 404 "Block account not found",
          set_script (tl (script w)) w)).
Proof.
  intros idStr id w Hid Habs.
  destruct (filter_absent id _ Habs) as [_ Hkeep].
  pose proof (proj2 (existsb_has_id id _) Habs) as Hex.
  assert (Hclear : clear 1 (script w) = true ->
            DeleteBlockAccount id w
            = (Some ErrNoRows, set_script (tl (script w)) w)).
  { intros Hc. rewrite DeleteBlockAccount_clear by exact Hc.
    rewrite Hex, Hkeep. reflexivity. }
  assert (Hserve : ServeHTTP (DELETE_block_account idStr) w
            = (let (err, w1) := DeleteBlockAccount id w in
               match err with
               | Some err =>
                   if isErrNoRows err
                   then ret (writeError StatusNotFound "Block account not found")
                   else ret (writeError StatusInternalServerError (Error err))
               | None => ret {| StatusCode := StatusNoContent;
                                ContentType := None; body := NoBody |}
               end w1)).
  { unfold ServeHTTP, ServiceMiddleware, deleteBlockAccountHandler, bind.
    rewrite Hid. reflexivity. }
  rewrite Hserve.
  destruct (DeleteBlockAccount id w) as [err w1] eqn:Hdel.
  pose proof Hdel as Hinv.
  apply DeleteBlockAccount_inv in Hinv as [(msg & -> & ->) | (Hc & -> & ->)].
  - do 3 (split; [reflexivity |]).
    split; [discriminate |].
    intros Hc. specialize (Hclear Hc). discriminate Hclear.
  - rewrite Hex, Hkeep. do 3 (split; [reflexivity |]).
    split; [discriminate |]. intros _. split; reflexivity.
Qed.

Lemma delete_absent_not_found_witness :
  block_accounts (snd (ServeHTTP (DELETE_block_account "2") one_account))
  = block_accounts one_account /\
  DeleteBlockAccount 2 one_account
  = (Some ErrNoRows, set_script (tl (script one_account)) one_account) /\
  StatusCode (fst (ServeHTTP (DELETE_block_account "2") one_account)) = 404.
Proof.
  assert (Habs : ~ present 2 one_account).
  { cbn. intros [H | []]. discriminate H. }
  destruct (delete_absent_not_found "2" 2 one_account eq_refl Habs)
    as (_ & _ & Hrows & _ & Hclear).
  destruct (Hclear eq_refl) as [Hdel Hserve].
  split; [exact Hrows |]. split; [exact Hdel |].
  rewrite Hserve. reflexivity.
Defined.

(** C7.  After a [DeleteBlockAccount] that returned [nil], no row carries
    the id: [GetBlockAccount] with that id never returns a record, and
    when its statement runs it returns the not-found signal, which the
    handler answers with 404. *)
Theorem delete_then_get_not_found :
  forall (id : Z) (w w1 : World),
    DeleteBlockAccount id w = (None, w1) ->
    ~ present id w1 /\
    (forall a, fst (GetBlockAccount id w1) <> Ok (Some a)) /\
    (clear 1 (script w1) = true ->
       GetBlockAccount id w1 = (Ok None, set_script (tl (script w1)) w1) /\
       forall idStr, Strconv.Atoi idStr = Some id ->
         ServeHTTP (GET_block_account idStr) w1
         = (writeError 404 "Block account not found",
            set_script (tl (script w1)) w1)).
Proof.
  intros id w w1 Hdel.
  apply DeleteBlockAccount_inv in Hdel as [(msg & H & _) | (_ & _ & ->)];
    [discriminate H |].
  assert (Habs : ~ present id
            (set_rows (filter (fun a => negb (has_id id a)) (block_accounts w))
               (set_script (tl (script w)) w)))
    by apply filter_removes.
  revert Habs.
  generalize (set_rows (filter (fun a => negb (has_id id a)) (block_accounts w))
                (set_script (tl (script w)) w)).
  intros w1 Habs.
  pose proof (proj2 (find_has_id_none id _) Habs) as Hfind.
  assert (Hclear : clear 1 (script w1) = true ->
            GetBlockAccount id w1 = (Ok None, set_script (tl (script w1)) w1)).
  { intros Hc. rewrite GetBlockAccount_clear by exact Hc.
    rewrite Hfind. reflexivity. }
  split; [exact Habs |]. split.
  - intros a. destruct (clear 1 (script w1)) eqn:Hc.
    + rewrite Hclear by reflexivity. discriminate.
    + unfold GetBlockAccount, bind, select_by_id, statement.
      destruct (script w1) as [| [msg |] rest]; try discriminate Hc.
      cbn. discriminate.
  - intros Hc. split; [now apply Hclear |].
    intros idStr Hid.
    unfold ServeHTTP, ServiceMiddleware, getBlockAccountHandler, bind.
    rewrite Hid. cbn [svcGetBlockAccount service].
    rewrite Hclear by exact Hc. reflexivity.
Qed.

Lemma delete_then_get_not_found_witness :
  exists w1,
    DeleteBlockAccount 1 one_account = (None, w1) /\
    GetBlockAccount 1 w1 = (Ok None, set_script (tl (script w1)) w1) /\
    StatusCode (fst (ServeHTTP (GET_block_account "1") w1)) = 404.
Proof.
  eexists. split; [reflexivity |].
  destruct (delete_then_get_not_found 1 one_account _ eq_refl)
    as (_ & _ & Hclear).
  destruct (Hclear eq_refl) as [Hget Hserve].
  split; [exact Hget |]. rewrite (Hserve "1" eq_refl). reflexivity.
Defined.

(** C8.  How the four handlers turn outcomes into responses, for any
    implementation of the service interface: a body that does not decode,
    a request that fails validation or a path parameter that is not an
    integer gives 400; the not-found signal of get and [sql.ErrNoRows]
    from delete give 404; any other error of the service gives 500; a
    delete that succeeded gives 204 with no body; a create, get or list
    that succeeded gives 200 with the JSON envelope holding the result. *)
Theorem handlers_status_mapping :
  forall (svc : BlockAccountService) (w : World),
    (* validation failures *)
    createBlockAccountHandler (Some svc) None w
    = (writeError 400 "Invalid request body", w) /\
    (forall req err,
       validateCreateRequest req = Some err ->
       createBlockAccountHandler (Some svc) (Some req) w
       = (writeError 400 (Error err), w)) /\
    (forall s,
       Strconv.Atoi s = None ->
       getBlockAccountHandler (Some svc) s w
       = (writeError 400 "Invalid block account ID", w) /\
       getUserBlockAccountsHandler (Some svc) s w
       = (writeError 400 "Invalid user ID", w) /\
       deleteBlockAccountHandler (Some svc) s w
       = (writeError 400 "Invalid block account ID", w)) /\
    (* not found *)
    (forall s id w1,
       Strconv.Atoi s = Some id ->
       svcGetBlockAccount svc id w = (Ok None, w1) ->
       getBlockAccountHandler (Some svc) s w
       = (writeError 404 "Block account not found", w1)) /\
    (forall s id w1,
       Strconv.Atoi s = Some id ->
       svcDeleteBlockAccount svc id w = (Some ErrNoRows, w1) ->
       deleteBlockAccountHandler (Some svc) s w
       = (writeError 404 "Block account not found", w1)) /\
    (* errors of the service *)
    (forall req e w1,
       validateCreateRequest req = None ->
       svcCreateBlockAccount svc (reqUserID req) (reqPrincipal req)
         (reqPeriod req) w = (Err e, w1) ->
       createBlockAccountHandler (Some svc) (Some req) w
       = (writeError 500 (Error e), w1)) /\
    (forall s id e w1,
       Strconv.Atoi s = Some id ->
       svcGetBlockAccount svc id w = (Err e, w1) ->
       getBlockAccountHandler (Some svc) s w = (writeError 500 (Error e), w1)) /\
    (forall s id e w1,
       Strconv.Atoi s = Some id ->
       svcGetUserBlockAccounts svc id w = (Err e, w1) ->
       getUserBlockAccountsHandler (Some svc) s w
       = (writeError 500 (Error e), w1)) /\
    (forall s id e w1,
       Strconv.Atoi s = Some id ->
       svcDeleteBlockAccount svc id w = (Some e, w1) ->
       e <> ErrNoRows ->
       deleteBlockAccountHandler (Some svc) s w
       = (writeError 500 (Error e), w1)) /\
    (* successes *)
    (forall s id w1,
       Strconv.Atoi s = Some id ->
       svcDeleteBlockAccount svc id w = (None, w1) ->
       deleteBlockAccountHandler (Some svc) s w
       = ({| StatusCode := 204; ContentType := None; body := NoBody |}, w1)) /\
    (forall req a w1,
       validateCreateRequest req = None ->
       svcCreateBlockAccount svc (reqUserID req) (reqPrincipal req)
         (reqPeriod req) w = (Ok a, w1) ->
       createBlockAccountHandler (Some svc) (Some req) w
       = (writeSuccess (DataAccount a) "Block account created successfully", w1)) /\
    (forall s id a w1,
       Strconv.Atoi s = Some id ->
       svcGetBlockAccount svc id w = (Ok (Some a), w1) ->
       getBlockAccountHandler (Some svc) s w
       = (writeSuccess (DataAccount (Some a))
            "Block account retrieved successfully", w1)) /\
    (forall s id l w1,
       Strconv.Atoi s = Some id ->
       svcGetUserBlockAccounts svc id w = (Ok l, w1) ->
       getUserBlockAccountsHandler (Some svc) s w
       = (writeSuccess (DataAccounts l)
            "User block accounts retrieved successfully", w1)) /\
    (* the status lines of the two writers *)
    (forall data message,
       StatusCode (writeSuccess data message) = 200 /\
       body (writeSuccess data message)
       = SuccessBody {| sucSuccess := true; sucData := data;
                        sucMessage := message |}) /\
    (forall code message, StatusCode (writeError code message) = code) /\
    (* the routes as [main] assembles them *)
    (forall r,
       In (StatusCode (fst (ServeHTTP r w))) [200; 204; 400; 404; 500]).
Proof.
  intros svc w.
  repeat match goal with |- _ /\ _ => split end;
    unfold ServeHTTP, ServiceMiddleware,
      createBlockAccountHandler, getBlockAccountHandler,
      getUserBlockAccountsHandler, deleteBlockAccountHandler, bind;
    try reflexivity;
    try (intros r; destruct r as [[req |] | s | s | s];
         [ destruct (validateCreateRequest req);
           [| destruct (svcCreateBlockAccount service (reqUserID req)
                          (reqPrincipal req) (reqPeriod req) w) as [[a | e] w1]]
         | idtac
         | destruct (Strconv.Atoi s) as [id |];
           [destruct (svcGetBlockAccount service id w) as [[[a |] | e] w1] |]
         | destruct (Strconv.Atoi s) as [id |];
           [destruct (svcGetUserBlockAccounts service id w) as [[l | e] w1] |]
         | destruct (Strconv.Atoi s) as [id |];
           [destruct (svcDeleteBlockAccount service id w) as [[[| m | m] |] w1] |] ];
         cbn; tauto).
  - intros req err ->. reflexivity.
  - intros s ->. repeat split.
  - intros s id w1 -> ->. reflexivity.
  - intros s id w1 -> ->. reflexivity.
  - intros req e w1 -> ->. reflexivity.
  - intros s id e w1 -> ->. reflexivity.
  - intros s id e w1 -> ->. reflexivity.
  - intros s id e w1 -> -> He. destruct e; [congruence | |]; reflexivity.
  - intros s id w1 -> ->. reflexivity.
  - intros req a w1 -> ->. reflexivity.
  - intros s id a w1 -> ->. reflexivity.
  - intros s id l w1 -> ->. reflexivity.
  - intros data message. split; reflexivity.
Qed.

Lemma handlers_status_mapping_witness :
  StatusCode (fst (deleteBlockAccountHandler (Some service) "1" one_account))
  = 204 /\
  body (fst (deleteBlockAccountHandler (Some service) "1" one_account))
  = NoBody /\
  StatusCode (fst (deleteBlockAccountHandler (Some service) "2" one_account))
  = 404 /\
  StatusCode (fst (getBlockAccountHandler (Some service) "1" one_account_offline))
  = 500 /\
  StatusCode (fst (getBlockAccountHandler (Some service) "one" one_account))
  = 400.
Proof.
  destruct (handlers_status_mapping service one_account)
    as (_ & _ & Hbad & _ & Hgone & _ & _ & _ & _ & Hdel & _).
  destruct (handlers_status_mapping service one_account_offline)
    as (_ & _ & _ & _ & _ & _ & Hfail & _).
  rewrite (Hdel "1" 1 _ eq_refl eq_refl).
  rewrite (Hgone "2" 2 _ eq_refl eq_refl).
  rewrite (Hfail "1" 1 _ _ eq_refl eq_refl).
  destruct (Hbad "one" eq_refl) as [-> _].
  repeat split.
Defined.

Lemma unique_ids_same (l : list BlockAccount) (a b : BlockAccount) :
  NoDup (map ID l) -> In a l -> In b l -> ID a = ID b -> a = b.
Proof.
  induction l as [| c l IH]; cbn; [intros _ [] |].
  intros Hnd Ha Hb Hid. inversion Hnd as [| ? ? Hc Hl]; subst.
  destruct Ha as [-> | Ha], Hb as [-> | Hb]; auto.
  - exfalso. apply Hc. rewrite Hid. now apply in_map.
  - exfalso. apply Hc. rewrite <- Hid. now apply in_map.
Qed.

(** C9.  In every state the system can reach, each stored account has
    status "active".  A request leaves the table as it was, appends one
    row (a create request that passed validation), or removes the rows of
    one id (a delete request); the passing of time and the failures of
    the database leave it as it was.  Hence an account that is still in
    the table after a step is, field for field, the account that was
    there before. *)
Theorem accounts_active_and_never_updated :
  (forall (es : list Event) (a : BlockAccount),
     In a (block_accounts (run es initial)) -> Status a = "active") /\
  (forall (w : World) (r : Request),
     table_change w (step w (Serve r)) r) /\
  (forall (w : World) (d : N) (s : list (option string)),
     block_accounts (step w (Elapse d)) = block_accounts w /\
     block_accounts (step w (Forecast s)) = block_accounts w) /\
  (forall (w : World) (e : Event) (a a' : BlockAccount),
     unique_ids w ->
     In a (block_accounts w) ->
     In a' (block_accounts (step w e)) ->
     ID a' = ID a ->
     a' = a).
Proof.
  split; [| split; [| split]].
  - intros es a Hin.
    destruct (reachable_consistent (run es initial)) as (_ & _ & Hact & _);
      [now exists es |].
    rewrite Forall_forall in Hact. now apply Hact.
  - intros w r. apply ServeHTTP_change.
  - intros w d s. split; reflexivity.
  - intros w e a a' Hnd Ha Ha' Hid.
    destruct e as [r | d | s]; cbn [step] in Ha';
      [| exact (unique_ids_same _ _ _ Hnd Ha' Ha Hid)
       | exact (unique_ids_same _ _ _ Hnd Ha' Ha Hid)].
    destruct (ServeHTTP_change r w) as (Hch & _). cbv zeta in Hch.
    revert Hch Ha'. generalize (snd (ServeHTTP r w)). intros w' Hch Ha'.
    destruct Hch as [r0 Hrows | req b _ Hfresh _ _ _ _ Hrows | idStr id _ Hrows];
      rewrite Hrows in Ha'.
    + exact (unique_ids_same _ _ _ Hnd Ha' Ha Hid).
    + apply in_app_or in Ha' as [Ha' | [<- | []]].
      * exact (unique_ids_same _ _ _ Hnd Ha' Ha Hid).
      * exfalso. apply Hfresh. unfold present. rewrite Hid. now apply in_map.
    + apply filter_In in Ha' as [Ha' _].
      exact (unique_ids_same _ _ _ Hnd Ha' Ha Hid).
Qed.

Lemma accounts_active_and_never_updated_witness :
  let e := Serve (POST_block_account
             (Some {| reqUserID := 8; reqPrincipal := 10%Q; reqPeriod := "3m" |})) in
  (forall a, In a (block_accounts (run [e; Elapse 5; e] initial)) ->
             Status a = "active") /\
  (forall a a',
     In a (block_accounts one_account) ->
     In a' (block_accounts (step one_account e)) ->
     ID a' = ID a -> a' = a).
Proof.
  intros e.
  destruct accounts_active_and_never_updated as (Hactive & _ & _ & Hsame).
  split.
  - exact (Hactive [e; Elapse 5; e]).
  - intros a a'. exact (Hsame one_account e a a' one_account_unique).
Defined.

(** C10.  A path id that [strconv.Atoi] accepts and that is zero or
    negative is not answered with 400 by the get and delete handlers:
    each calls the service with that id and answers from what the
    service returns.  When the statement runs and no row carries the id,
    as is the case in every reachable state, the answer is 404.  The
    strings "-1" and "0" are such ids. *)
Theorem nonpositive_id_reaches_store :
  forall (idStr : string) (id : Z) (w : World),
    Strconv.Atoi idStr = Some id ->
    id <= 0 ->
    ServeHTTP (GET_block_account idStr) w
    = (match fst (GetBlockAccount id w) with
       | Err err => writeError 500 (Error err)
       | Ok None => writeError 404 "Block account not found"
       | Ok (Some account) =>
           writeSuccess (DataAccount (Some account))
             "Block account retrieved successfully"
       end,
       snd (GetBlockAccount id w)) /\
    ServeHTTP (DELETE_block_account idStr) w
    = (match fst (DeleteBlockAccount id w) with
       | Some ErrNoRows => writeError 404 "Block account not found"
       | Some err => writeError 500 (Error err)
       | None => {| StatusCode := 204; ContentType := None; body := NoBody |}
       end,
       snd (DeleteBlockAccount id w)) /\
    StatusCode (fst (ServeHTTP (GET_block_account idStr) w)) <> 400 /\
    StatusCode (fst (ServeHTTP (DELETE_block_account idStr) w)) <> 400 /\
    (clear 1 (script w) = true ->
     ~ present id w ->
     StatusCode (fst (ServeHTTP (GET_block_account idStr) w)) = 404 /\
     StatusCode (fst (ServeHTTP (DELETE_block_account idStr) w)) = 404) /\
    (reachable w -> ~ present id w) /\
    Strconv.Atoi "-1" = Some (-1) /\
    Strconv.Atoi "0" = Some 0.
Proof.
  intros idStr id w Hid Hle.
  assert (Hget : ServeHTTP (GET_block_account idStr) w
    = (match fst (GetBlockAccount id w) with
       | Err err => writeError 500 (Error err)
       | Ok None => writeError 404 "Block account not found"
       | Ok (Some account) =>
           writeSuccess (DataAccount (Some account))
             "Block account retrieved successfully"
       end,
       snd (GetBlockAccount id w))).
  { unfold ServeHTTP, ServiceMiddleware, getBlockAccountHandler, bind.
    rewrite Hid. cbn [svcGetBlockAccount service].
    destruct (GetBlockAccount id w) as [[[a |] | e] w1]; reflexivity. }
  assert (Hdel : ServeHTTP (DELETE_block_account idStr) w
    = (match fst (DeleteBlockAccount id w) with
       | Some ErrNoRows => writeError 404 "Block account not found"
       | Some err => writeError 500 (Error err)
       | None => {| StatusCode := 204; ContentType := None; body := NoBody |}
       end,
       snd (DeleteBlockAccount id w))).
  { unfold ServeHTTP, ServiceMiddleware, deleteBlockAccountHandler, bind.
    rewrite Hid. cbn [svcDeleteBlockAccount service].
    destruct (DeleteBlockAccount id w) as [[[| m | m] |] w1]; reflexivity. }
  split; [exact Hget |]. split; [exact Hdel |].
  rewrite Hget, Hdel. cbn [fst].
  split; [| split; [| split; [| split; [| split; reflexivity]]]].
  - destruct (fst (GetBlockAccount id w)) as [[a |] | e]; discriminate.
  - destruct (fst (DeleteBlockAccount id w)) as [[| m | m] |]; discriminate.
  - intros Hc Habs.
    rewrite GetBlockAccount_clear, DeleteBlockAccount_clear by exact Hc.
    rewrite (proj2 (find_has_id_none id _) Habs).
    rewrite (proj2 (existsb_has_id id _) Habs). split; reflexivity.
  - intros Hreach Hin.
    destruct (reachable_consistent w Hreach) as (_ & _ & _ & _ & Hids).
    apply in_map_iff in Hin as (a & Ha & Hin).
    rewrite Forall_forall in Hids. apply Hids in Hin. lia.
Qed.

Lemma nonpositive_id_reaches_store_witness :
  Strconv.Atoi "-1" = Some (-1) /\
  StatusCode (fst (ServeHTTP (GET_block_account "-1") one_account)) = 404 /\
  StatusCode (fst (ServeHTTP (DELETE_block_account "-1") one_account)) = 404.
Proof.
  split; [reflexivity |].
  assert (Hle : -1 <= 0) by lia.
  destruct (nonpositive_id_reaches_store "-1" (-1) one_account eq_refl Hle)
    as (_ & _ & _ & _ & H404 & Habs & _).
  apply (H404 eq_refl). apply Habs.
  exists [Serve (POST_block_account
            (Some {| reqUserID := 7; reqPrincipal := 5000%Q; reqPeriod := "1y" |}))].
  reflexivity.
Defined.

(** * Further properties of the code *)

Lemma isValidPeriod_terms (period : string) :
  isValidPeriod period = true <->
  exists duration rate, period_terms period = Some (duration, rate).
Proof.
  split.
  - intros H. destruct (isValidPeriod_resolve _ H) as (days & rate & Hres).
    apply period_terms_resolve in Hres. eauto.
  - intros (duration & rate & H). apply isValidPeriod_codes.
    unfold period_terms in H. unfold RateTable.codes. cbn [In].
    split_period period; try discriminate H; auto.
Qed.

Lemma statement_scripted {A} (run : M (result A)) (w : World) msg rest :
  script w = Some msg :: rest ->
  statement run w = (Err (DriverError msg), set_script rest w).
Proof. intros H. unfold statement. rewrite H. reflexivity. Qed.

(** X1.  [validateCreateRequest] returns [nil] exactly for a positive user
    id, a positive principal and one of the periods 3m, 6m, 1y, 3y, and
    otherwise reports the first check that fails, in the order user id,
    principal, period. *)
Theorem validateCreateRequest_accepts_exactly :
  forall req : CreateAccountRequest,
    (validateCreateRequest req = None <->
     0 < reqUserID req /\ (0 < reqPrincipal req)%Q /\
     In (reqPeriod req) ["3m"; "6m"; "1y"; "3y"]) /\
    (reqUserID req <= 0 ->
     validateCreateRequest req = Some (Errorf "user_id must be positive")) /\
    (0 < reqUserID req -> (reqPrincipal req <= 0)%Q ->
     validateCreateRequest req = Some (Errorf "principal must be positive")) /\
    (0 < reqUserID req -> (0 < reqPrincipal req)%Q ->
     ~ In (reqPeriod req) ["3m"; "6m"; "1y"; "3y"] ->
     validateCreateRequest req
     = Some (Errorf ("invalid period: " ++ reqPeriod req
                     ++ ". Valid options are: 3m, 6m, 1y, 3y"))).
Proof.
  intros req. split; [| split; [| split]].
  - rewrite validateCreateRequest_nil, isValidPeriod_codes. reflexivity.
  - intros Hu. unfold validateCreateRequest.
    destruct (Z.leb_spec (reqUserID req) 0); [reflexivity | lia].
  - intros Hu Hp. unfold validateCreateRequest.
    destruct (Z.leb_spec (reqUserID req) 0); [lia |].
    apply Qle_bool_iff in Hp. rewrite Hp. reflexivity.
  - intros Hu Hp Hper. unfold validateCreateRequest.
    destruct (Z.leb_spec (reqUserID req) 0); [lia |].
    destruct (Qle_bool (reqPrincipal req) 0) eqn:Hq.
    { apply Qle_bool_iff in Hq. exfalso. exact (Qlt_not_le _ _ Hp Hq). }
    destruct (isValidPeriod (reqPeriod req)) eqn:Hv; [| reflexivity].
    exfalso. apply Hper. now apply isValidPeriod_codes.
Qed.

Lemma validateCreateRequest_accepts_exactly_witness :
  validateCreateRequest
    {| reqUserID := 0; reqPrincipal := (-1)%Q; reqPeriod := "10y" |}
  = Some (Errorf "user_id must be positive") /\
  validateCreateRequest
    {| reqUserID := 3; reqPrincipal := 0%Q; reqPeriod := "10y" |}
  = Some (Errorf "principal must be positive") /\
  validateCreateRequest
    {| reqUserID := 3; reqPrincipal := 0.01%Q; reqPeriod := "6m" |}
  = None.
Proof.
  split; [| split].
  - apply (validateCreateRequest_accepts_exactly
             {| reqUserID := 0; reqPrincipal := (-1)%Q; reqPeriod := "10y" |}).
    cbn. lia.
  - apply (validateCreateRequest_accepts_exactly
             {| reqUserID := 3; reqPrincipal := 0%Q; reqPeriod := "10y" |});
      cbn; [lia | discriminate].
  - apply (validateCreateRequest_accepts_exactly
             {| reqUserID := 3; reqPrincipal := 0.01%Q; reqPeriod := "6m" |}).
    cbn. repeat split; auto.
Defined.

(** X2.  The periods [isValidPeriod] accepts are exactly the cases of the
    [switch] in [CreateBlockAccount].  Called with any other period the
    service fails with "invalid period" before it touches the database;
    called for a request that passed validation it can only fail with an
    error of the database driver. *)
Theorem validation_agrees_with_switch :
  forall period : string,
    (isValidPeriod period = true <->
     exists duration rate, period_terms period = Some (duration, rate)) /\
    (isValidPeriod period = false ->
     forall userID principal w,
       CreateBlockAccount userID principal period w
       = (Err (Errorf ("invalid period: " ++ period)), w)) /\
    (isValidPeriod period = true ->
     forall userID principal w e w',
       CreateBlockAccount userID principal period w = (Err e, w') ->
       exists msg, e = DriverError msg).
Proof.
  intros period. split; [apply isValidPeriod_terms | split].
  - intros Hv userID principal w. unfold CreateBlockAccount.
    destruct (period_terms period) as [[d r] |] eqn:Hp; [| reflexivity].
    assert (isValidPeriod period = true) by (apply isValidPeriod_terms; eauto).
    congruence.
  - intros Hv userID principal w e w'.
    apply isValidPeriod_terms in Hv as (d & rate & Hp).
    unfold CreateBlockAccount. rewrite Hp. unfold bind, Now.
    destruct (insert_returning_id userID principal (clock w)
                (GoTime.Add (clock w) d) rate w) as [r w1] eqn:Hins.
    apply insert_returning_id_inv in Hins
      as [(msg & -> & _) | (-> & Hfresh & ->)].
    + intros H. inversion H; subst. eauto.
    + destruct (select_by_id (block_accounts_id_seq w + 1)
                  (after_insert w
                     (inserted_row w userID principal (clock w)
                        (GoTime.Add (clock w) d) rate))) as [r2 w2] eqn:Hsel.
      apply select_by_id_inv in Hsel as [-> [(msg & -> & _) | (_ & Hfind)]].
      * intros H. inversion H; subst. eauto.
      * cbn [block_accounts after_insert] in Hfind.
        rewrite find_app_fresh in Hfind by now apply existsb_has_id.
        unfold has_id in Hfind. cbn in Hfind. rewrite Z.eqb_refl in Hfind.
        subst r2. discriminate.
Qed.

Lemma validation_agrees_with_switch_witness :
  CreateBlockAccount 1 5000%Q "2y" one_account
  = (Err (Errorf "invalid period: 2y"), one_account) /\
  exists duration rate, period_terms "3y" = Some (duration, rate).
Proof.
  split.
  - apply (validation_agrees_with_switch "2y"). reflexivity.
  - apply (validation_agrees_with_switch "3y"). reflexivity.
Defined.

(** X3.  The two statements of [CreateBlockAccount] are not one unit: when
    the [INSERT] runs and the [SELECT] that follows fails, the handler
    answers 500 with the message of the driver although the account has
    been stored. *)
Theorem create_answers_500_after_insert :
  forall (req : CreateAccountRequest) (w : World) (msg : string)
         (rest : list (option string)),
    validateCreateRequest req = None ->
    seq_ahead w = true ->
    script w = None :: Some msg :: rest ->
    exists duration rate,
      period_terms (reqPeriod req) = Some (duration, rate) /\
      let a := created_row w (reqUserID req) (reqPrincipal req) duration rate in
      ServeHTTP (POST_block_account (Some req)) w
      = (writeError 500 msg, set_script rest (after_insert w a)) /\
      block_accounts (snd (ServeHTTP (POST_block_account (Some req)) w))
      = (block_accounts w ++ [a])%list.
Proof.
  intros req w msg rest Hv Hs Hscript.
  pose proof Hv as Hper.
  apply validateCreateRequest_nil in Hper as (_ & _ & Hper).
  apply isValidPeriod_terms in Hper as (duration & rate & Hp).
  exists duration, rate. split; [exact Hp |]. cbv zeta.
  assert (E : ServeHTTP (POST_block_account (Some req)) w
    = (writeError 500 msg,
       set_script rest
         (after_insert w
            (created_row w (reqUserID req) (reqPrincipal req) duration rate)))).
  { unfold ServeHTTP, ServiceMiddleware, createBlockAccountHandler.
    rewrite Hv. unfold bind. cbn [svcCreateBlockAccount service].
    unfold CreateBlockAccount. rewrite Hp. unfold bind, Now.
    rewrite insert_returning_id_runs
      by (try exact Hs; rewrite Hscript; reflexivity).
    unfold select_by_id.
    rewrite (statement_scripted _ _ msg rest)
      by (cbn; rewrite Hscript; reflexivity).
    reflexivity. }
  rewrite E. split; reflexivity.
Qed.

Lemma create_answers_500_after_insert_witness :
  let req := {| reqUserID := 9; reqPrincipal := 250%Q; reqPeriod := "6m" |} in
  let w := set_script [None; Some "pq: connection reset"] one_account in
  StatusCode (fst (ServeHTTP (POST_block_account (Some req)) w)) = 500 /\
  length (block_accounts (snd (ServeHTTP (POST_block_account (Some req)) w))) = 2%nat.
Proof.
  intros req w.
  destruct (create_answers_500_after_insert req w "pq: connection reset" []
              eq_refl eq_refl eq_refl) as (d & r & _ & Hserve & Hrows).
  rewrite Hrows, Hserve. split; reflexivity.
Defined.

(** X4.  When the driver fails the first statement of a request, each of
    the four routes answers 500 with the message of the driver and leaves
    the table, the sequence and the clock as they were. *)
Theorem driver_failure_is_500_and_changes_nothing :
  forall (w : World) (msg : string) (rest : list (option string)),
    script w = Some msg :: rest ->
    (forall req,
       validateCreateRequest req = None ->
       ServeHTTP (POST_block_account (Some req)) w
       = (writeError 500 msg, set_script rest w)) /\
    (forall s id,
       Strconv.Atoi s = Some id ->
       ServeHTTP (GET_block_account s) w
       = (writeError 500 msg, set_script rest w) /\
       ServeHTTP (GET_user_block_accounts s) w
       = (writeError 500 msg, set_script rest w) /\
       ServeHTTP (DELETE_block_account s) w
       = (writeError 500 msg, set_script rest w)).
Proof.
  intros w msg rest Hscript. split.
  - intros req Hv. pose proof Hv as Hper.
    apply validateCreateRequest_nil in Hper as (_ & _ & Hper).
    apply isValidPeriod_terms in Hper as (duration & rate & Hp).
    unfold ServeHTTP, ServiceMiddleware, createBlockAccountHandler.
    rewrite Hv. unfold bind. cbn [svcCreateBlockAccount service].
    unfold CreateBlockAccount. rewrite Hp.
    unfold bind, Now, insert_returning_id.
    rewrite (statement_scripted _ _ msg rest Hscript). reflexivity.
  - intros s id Hid.
    unfold ServeHTTP, ServiceMiddleware, getBlockAccountHandler,
      getUserBlockAccountsHandler, deleteBlockAccountHandler, bind.
    rewrite Hid. cbn [svcGetBlockAccount svcGetUserBlockAccounts
                      svcDeleteBlockAccount service].
    unfold GetBlockAccount, GetUserBlockAccounts, DeleteBlockAccount, bind,
      select_by_id, select_by_user, delete_by_id.
    rewrite !(statement_scripted _ _ msg rest Hscript).
    repeat split.
Qed.

Lemma driver_failure_is_500_and_changes_nothing_witness :
  ServeHTTP (DELETE_block_account "1") one_account_offline
  = (writeError 500 "pq: connection refused", one_account) /\
  block_accounts (snd (ServeHTTP (DELETE_block_account "1") one_account_offline))
  = block_accounts one_account.
Proof.
  destruct (driver_failure_is_500_and_changes_nothing one_account_offline
              "pq: connection refused" [] eq_refl) as [_ H].
  destruct (H "1" 1 eq_refl) as (_ & _ & Hdel).
  rewrite Hdel. split; reflexivity.
Defined.

Lemma clear_split (n : nat) (s : list (option string)) :
  clear (S n) s = true -> clear 1 s = true /\ clear n (tl s) = true.
Proof. rewrite clear_S. apply andb_true_iff. Qed.

Lemma filter_other_ids_snoc (rows : list BlockAccount) (a : BlockAccount) :
  ~ In (ID a) (map ID rows) ->
  filter (fun b => negb (has_id (ID a) b)) (rows ++ [a]) = rows.
Proof.
  intros Hfresh. rewrite filter_app.
  destruct (filter_absent _ _ Hfresh) as [_ ->].
  cbn. unfold has_id. rewrite Z.eqb_refl. cbn. apply app_nil_r.
Qed.

Lemma existsb_has_id_snoc (rows : list BlockAccount) (a : BlockAccount) :
  existsb (has_id (ID a)) (rows ++ [a]) = true.
Proof.
  rewrite existsb_app. cbn. unfold has_id at 2. rewrite Z.eqb_refl.
  cbn. apply orb_true_r.
Qed.

(** X5.  The routes compose as a client expects.  For a request that
    passes validation, with the statements running: the create answers
    200 with the new account, a get of its id answers 200 with the same
    account, a delete of the id answers 204, and a second get answers
    404.  The table is then what it was before the create, and the id is
    spent: the sequence has moved on by one. *)
Theorem create_get_delete_get :
  forall (req : CreateAccountRequest) (w : World) (idStr : string),
    validateCreateRequest req = None ->
    seq_ahead w = true ->
    clear 5 (script w) = true ->
    Strconv.Atoi idStr = Some (block_accounts_id_seq w + 1) ->
    exists a w1 w2 w3 w4,
      ServeHTTP (POST_block_account (Some req)) w
      = (writeSuccess (DataAccount (Some a))
           "Block account created successfully", w1) /\
      ServeHTTP (GET_block_account idStr) w1
      = (writeSuccess (DataAccount (Some a))
           "Block account retrieved successfully", w2) /\
      ServeHTTP (DELETE_block_account idStr) w2
      = ({| StatusCode := 204; ContentType := None; body := NoBody |}, w3) /\
      ServeHTTP (GET_block_account idStr) w3
      = (writeError 404 "Block account not found", w4) /\
      ID a = block_accounts_id_seq w + 1 /\
      UserID a = reqUserID req /\
      block_accounts w4 = block_accounts w /\
      block_accounts_id_seq w4 = block_accounts_id_seq w + 1.
Proof.
  intros req w idStr Hv Hs Hc Hid.
  pose proof Hv as Hper.
  apply validateCreateRequest_nil in Hper as (_ & _ & Hper).
  apply isValidPeriod_terms in Hper as (duration & rate & Hp).
  apply clear_split in Hc as [Hc1 Hc]. apply clear_split in Hc as [Hc2 Hc].
  apply clear_split in Hc as [Hc3 Hc]. apply clear_split in Hc as [Hc4 Hc].
  apply clear_split in Hc as [Hc5 _].
  assert (Hc12 : clear 2 (script w) = true).
  { rewrite clear_S, Hc1. cbn [andb]. rewrite clear_S, Hc2. reflexivity. }
  set (a := created_row w (reqUserID req) (reqPrincipal req) duration rate).
  destruct (CreateBlockAccount_runs (reqUserID req) (reqPrincipal req)
              _ _ _ w Hp Hc12 Hs) as [w1 Hcreate].
  fold a in Hcreate. pose proof Hcreate as Hinv.
  apply CreateBlockAccount_inv in Hinv as (d & r & Hd & _ & Hfresh & Hw1).
  rewrite Hp in Hd. inversion Hd; subst d r. clear Hd. fold a in Hw1.
  assert (Hfresh' : ~ In (ID a) (map ID (block_accounts w))) by exact Hfresh.
  set (w2 := set_script (tl (script w1)) w1).
  set (w3 := set_rows (filter (fun b => negb (has_id (ID a) b)) (block_accounts w2))
               (set_script (tl (script w2)) w2)).
  set (w4 := set_script (tl (script w3)) w3).
  exists a, w1, w2, w3, w4.
  assert (Hrows1 : block_accounts w1 = (block_accounts w ++ [a])%list)
    by (rewrite Hw1; reflexivity).
  assert (Hs1 : script w1 = tl (tl (script w))) by (rewrite Hw1; reflexivity).
  assert (Hseq1 : block_accounts_id_seq w1 = block_accounts_id_seq w + 1)
    by (rewrite Hw1; reflexivity).
  assert (Hrows3 : block_accounts w3 = block_accounts w).
  { unfold w3, w2. cbn. rewrite Hrows1.
    exact (filter_other_ids_snoc (block_accounts w) a Hfresh'). }
  split; [| split; [| split; [| split]]].
  - unfold ServeHTTP, ServiceMiddleware, createBlockAccountHandler.
    rewrite Hv. unfold bind. cbn [svcCreateBlockAccount service].
    rewrite Hcreate. reflexivity.
  - unfold ServeHTTP, ServiceMiddleware, getBlockAccountHandler, bind.
    rewrite Hid. cbn [svcGetBlockAccount service].
    change (block_accounts_id_seq w + 1) with (ID a).
    rewrite GetBlockAccount_clear by (rewrite Hs1; exact Hc3).
    rewrite Hrows1, find_app_fresh by now apply existsb_has_id.
    unfold has_id. rewrite Z.eqb_refl. reflexivity.
  - unfold ServeHTTP, ServiceMiddleware, deleteBlockAccountHandler, bind.
    rewrite Hid. cbn [svcDeleteBlockAccount service].
    change (block_accounts_id_seq w + 1) with (ID a).
    rewrite DeleteBlockAccount_clear
      by (unfold w2; cbn; rewrite Hs1; exact Hc4).
    replace (block_accounts w2) with (block_accounts w ++ [a])%list
      by (unfold w2; cbn; now rewrite Hrows1).
    rewrite existsb_has_id_snoc. unfold w3.
    replace (block_accounts w2) with (block_accounts w ++ [a])%list
      by (unfold w2; cbn; now rewrite Hrows1).
    reflexivity.
  - unfold ServeHTTP, ServiceMiddleware, getBlockAccountHandler, bind.
    rewrite Hid. cbn [svcGetBlockAccount service].
    change (block_accounts_id_seq w + 1) with (ID a).
    rewrite GetBlockAccount_clear
      by (unfold w3, w2; cbn; rewrite Hs1; exact Hc5).
    rewrite Hrows3, (proj2 (find_has_id_none _ _) Hfresh'). reflexivity.
  - repeat split; try reflexivity.
    + unfold w4. cbn. exact Hrows3.
    + unfold w4, w3, w2. cbn. exact Hseq1.
Qed.

Lemma create_get_delete_get_witness :
  let req := {| reqUserID := 9; reqPrincipal := 250%Q; reqPeriod := "6m" |} in
  exists a w1 w2 w3 w4,
    ServeHTTP (POST_block_account (Some req)) one_account
    = (writeSuccess (DataAccount (Some a))
         "Block account created successfully", w1) /\
    ServeHTTP (GET_block_account "2") w1
    = (writeSuccess (DataAccount (Some a))
         "Block account retrieved successfully", w2) /\
    ServeHTTP (DELETE_block_account "2") w2
    = ({| StatusCode := 204; ContentType := None; body := NoBody |}, w3) /\
    ServeHTTP (GET_block_account "2") w3
    = (writeError 404 "Block account not found", w4) /\
    ID a = 2 /\
    block_accounts w4 = block_accounts one_account.
Proof.
  intros req.
  destruct (create_get_delete_get req one_account "2"
              eq_refl eq_refl eq_refl eq_refl)
    as (a & w1 & w2 & w3 & w4 & H1 & H2 & H3 & H4 & Hid & _ & Hrows & _).
  exists a, w1, w2, w3, w4. repeat split; assumption.
Defined.

Lemma filter_other_ids_length (a : BlockAccount) (rows : list BlockAccount) :
  NoDup (map ID rows) -> In a rows ->
  S (length (filter (fun b => negb (has_id (ID a) b)) rows)) = length rows.
Proof.
  induction rows as [| b rows IH]; cbn; [intros _ [] |].
  intros Hnd Hin. apply NoDup_cons_iff in Hnd as [Hb Hrest].
  unfold has_id at 1. destruct (Z.eqb_spec (ID b) (ID a)) as [E | E]; cbn.
  - rewrite E in Hb. destruct (filter_absent _ _ Hb) as [_ ->]. reflexivity.
  - destruct Hin as [-> | Hin]; [congruence |]. now rewrite IH.
Qed.

(** X6.  A delete of the id of a stored account, with its statement
    running, answers 204, removes that account and no other, keeps the
    ids distinct, and makes a repeated delete of the same id answer
    404. *)
Theorem delete_removes_exactly_that_account :
  forall (idStr : string) (a : BlockAccount) (w : World),
    unique_ids w ->
    In a (block_accounts w) ->
    Strconv.Atoi idStr = Some (ID a) ->
    clear 1 (script w) = true ->
    let w' := snd (ServeHTTP (DELETE_block_account idStr) w) in
    fst (ServeHTTP (DELETE_block_account idStr) w)
    = {| StatusCode := 204; ContentType := None; body := NoBody |} /\
    (forall b, In b (block_accounts w') <-> In b (block_accounts w) /\ b <> a) /\
    S (length (block_accounts w')) = length (block_accounts w) /\
    unique_ids w' /\
    block_accounts_id_seq w' = block_accounts_id_seq w /\
    (clear 1 (script w') = true ->
     fst (ServeHTTP (DELETE_block_account idStr) w')
     = writeError 404 "Block account not found").
Proof.
  intros idStr a w Hnd Hin Hid Hc.
  assert (Hserve : forall v, ServeHTTP (DELETE_block_account idStr) v
            = (let (err, v1) := DeleteBlockAccount (ID a) v in
               match err with
               | Some err =>
                   if isErrNoRows err
                   then ret (writeError StatusNotFound "Block account not found")
                   else ret (writeError StatusInternalServerError (Error err))
               | None => ret {| StatusCode := StatusNoContent;
                                ContentType := None; body := NoBody |}
               end v1)).
  { intros v.
    unfold ServeHTTP, ServiceMiddleware, deleteBlockAccountHandler, bind.
    rewrite Hid. reflexivity. }
  assert (Hex : existsb (has_id (ID a)) (block_accounts w) = true).
  { apply existsb_exists. exists a. split; [exact Hin |].
    unfold has_id. apply Z.eqb_refl. }
  cbv zeta. rewrite (Hserve w), DeleteBlockAccount_clear by exact Hc.
  rewrite Hex. cbn [fst snd ret].
  set (w' := set_rows (filter (fun b => negb (has_id (ID a) b)) (block_accounts w))
               (set_script (tl (script w)) w)).
  assert (Hmem : forall b,
            In b (block_accounts w') <-> In b (block_accounts w) /\ b <> a).
  { intros b. unfold w'. cbn. rewrite filter_In, negb_true_iff.
    unfold has_id. rewrite Z.eqb_neq. split.
    - intros [Hb Hne]. split; [exact Hb | congruence].
    - intros [Hb Hne]. split; [exact Hb |]. intros E. apply Hne.
      exact (unique_ids_same _ _ _ Hnd Hb Hin E). }
  split; [reflexivity |]. split; [exact Hmem |].
  split; [unfold w'; cbn; now apply filter_other_ids_length |].
  split; [unfold w', unique_ids; cbn; now apply unique_ids_filter |].
  split; [reflexivity |].
  intros Hc'. rewrite (Hserve w'), DeleteBlockAccount_clear by exact Hc'.
  assert (Hgone : existsb (has_id (ID a)) (block_accounts w') = false).
  { apply existsb_has_id. unfold w'. cbn. apply filter_removes. }
  rewrite Hgone. reflexivity.
Qed.

Lemma delete_removes_exactly_that_account_witness :
  fst (ServeHTTP (DELETE_block_account "1") one_account)
  = {| StatusCode := 204; ContentType := None; body := NoBody |} /\
  length (block_accounts (snd (ServeHTTP (DELETE_block_account "1") one_account)))
  = 0%nat.
Proof.
  assert (Hin : exists a, In a (block_accounts one_account) /\ ID a = 1).
  { eexists. split; [left; reflexivity | reflexivity]. }
  destruct Hin as (a & Hin & Hid).
  destruct (delete_removes_exactly_that_account "1" a one_account
              one_account_unique Hin) as (Hresp & _ & Hlen & _).
  - rewrite Hid. reflexivity.
  - reflexivity.
  - split; [exact Hresp |]. cbv zeta in Hlen.
    change (length (block_accounts one_account)) with 1%nat in Hlen.
    now inversion Hlen.
Defined.

Lemma present_filter (id : Z) (keep : BlockAccount -> bool)
    (rows : list BlockAccount) :
  In id (map ID (filter keep rows)) -> In id (map ID rows).
Proof.
  rewrite !in_map_iff. intros (a & Ha & Hin).
  apply filter_In in Hin as [Hin _]. eauto.
Qed.

Lemma step_seq_monotone (w : World) (e : Event) :
  block_accounts_id_seq w <= block_accounts_id_seq (step w e).
Proof.
  destruct e as [r | d | s]; cbn [step]; [| cbn; lia | cbn; lia].
  apply ServeHTTP_change.
Qed.

Lemma step_keeps_absent (w : World) (e : Event) (id : Z) :
  id <= block_accounts_id_seq w -> ~ present id w -> ~ present id (step w e).
Proof.
  intros Hle Habs. destruct e as [r | d | s]; cbn [step]; [| exact Habs ..].
  destruct (ServeHTTP_change r w) as (Hch & _). cbv zeta in Hch.
  revert Hch. generalize (snd (ServeHTTP r w)). intros w' Hch. unfold present.
  destruct Hch as [r0 Hrows | req a _ _ Hid _ _ _ Hrows | idStr id' _ Hrows];
    rewrite Hrows.
  - exact Habs.
  - rewrite map_app, in_app_iff. cbn. intros [H | [H | []]]; [now apply Habs | lia].
  - intros H. apply Habs. now apply present_filter in H.
Qed.

(** X7.  Ids are never handed out twice.  An id that the sequence has
    passed and that no row carries, such as the id of a deleted account,
    is carried by no row in any later state, whatever requests are
    served; and the sequence never moves back. *)
Theorem spent_ids_never_return :
  forall (es : list Event) (w : World) (id : Z),
    id <= block_accounts_id_seq w ->
    ~ present id w ->
    ~ present id (run es w) /\
    block_accounts_id_seq w <= block_accounts_id_seq (run es w).
Proof.
  induction es as [| e es IH]; intros w id Hle Habs; cbn [run fold_left].
  - split; [exact Habs | lia].
  - pose proof (step_seq_monotone w e) as Hmono.
    destruct (IH (step w e) id) as [H1 H2];
      [lia | now apply step_keeps_absent |].
    split; [exact H1 |]. unfold run in H2. lia.
Qed.

Lemma spent_ids_never_return_witness :
  let gone := snd (ServeHTTP (DELETE_block_account "1") one_account) in
  let again := Serve (POST_block_account
                 (Some {| reqUserID := 7; reqPrincipal := 5000%Q;
                          reqPeriod := "1y" |})) in
  ~ present 1 (run [again; again] gone) /\
  map ID (block_accounts (run [again; again] gone)) = [2; 3].
Proof.
  intros gone again. split; [| reflexivity].
  apply (spent_ids_never_return [again; again] gone 1).
  - cbn. lia.
  - cbn. tauto.
Defined.

Lemma period_terms_inv (period : string) (duration : GoTime.Duration) (rate : Q) :
  period_terms period = Some (duration, rate) ->
  exists days,
    RateTable.resolve period = Some (days, rate) /\
    duration = days * GoTime.Day /\ 0 < days.
Proof.
  unfold period_terms, RateTable.resolve. intros H.
  split_period period; inversion H; subst; eexists;
    (split; [reflexivity |]); split; reflexivity.
Qed.

Lemma round_div_nonneg (n : Z) (d : positive) : 0 <= n -> 0 <= Pg.round_div n d.
Proof.
  intros Hn. unfold Pg.round_div.
  apply Z.mul_nonneg_nonneg; [now apply Z.sgn_nonneg |].
  apply Z.div_pos; lia.
Qed.

Lemma numeric_nonneg (scale : nat) (q : Q) :
  (0 <= q)%Q -> (0 <= Pg.numeric scale q)%Q.
Proof.
  unfold Qle, Pg.numeric. cbn. intros Hq.
  rewrite Z.mul_1_r in *. apply round_div_nonneg.
  apply Z.mul_nonneg_nonneg; lia.
Qed.

Lemma created_row_validated (w : World) (req : CreateAccountRequest)
    (duration : GoTime.Duration) (rate : Q) :
  validateCreateRequest req = None ->
  period_terms (reqPeriod req) = Some (duration, rate) ->
  validated_row
    (created_row w (reqUserID req) (reqPrincipal req) duration rate).
Proof.
  intros Hv Hp.
  apply validateCreateRequest_nil in Hv as (Hu & Hprin & _).
  destruct (period_terms_inv _ _ _ Hp) as (days & Hres & -> & Hdays).
  destruct (created_row_terms w (reqUserID req) (reqPrincipal req) _ _ _ Hres)
    as (_ & Hend & Hrate).
  unfold validated_row.
  split; [exact Hu |].
  split; [apply numeric_nonneg; now apply Qlt_le_weak |].
  split; [reflexivity |]. split; [reflexivity |].
  split.
  - rewrite Hend. unfold GoTime.Add.
    change GoTime.Day with 86400000000000. lia.
  - exists (reqPeriod req), (days * GoTime.Day), rate. auto.
Qed.

Lemma ServeHTTP_new_row (r : Request) (w : World) (a : BlockAccount) :
  In a (block_accounts (snd (ServeHTTP r w))) ->
  In a (block_accounts w) \/
  exists req duration rate,
    r = POST_block_account (Some req) /\
    validateCreateRequest req = None /\
    period_terms (reqPeriod req) = Some (duration, rate) /\
    a = created_row w (reqUserID req) (reqPrincipal req) duration rate.
Proof.
  destruct r as [[req |] | idStr | userIDStr | idStr].
  - unfold ServeHTTP, ServiceMiddleware, createBlockAccountHandler.
    destruct (validateCreateRequest req) eqn:Hv; [cbn; auto |].
    unfold bind. cbn [svcCreateBlockAccount service].
    pose proof (CreateBlockAccount_effect
                  (reqUserID req) (reqPrincipal req) (reqPeriod req) w) as H.
    destruct (CreateBlockAccount (reqUserID req) (reqPrincipal req)
                (reqPeriod req) w) as [res w1].
    cbn [snd] in H.
    replace (snd (match res with
                  | Ok account =>
                      ret (writeSuccess (DataAccount account)
                             "Block account created successfully")
                  | Err err =>
                      ret (writeError StatusInternalServerError (Error err))
                  end w1)) with w1 by (destruct res; reflexivity).
    destruct H as [_ [[Hrows _] | (d & rt & Hp & _ & Hrows & _)]];
      rewrite Hrows; [auto |].
    rewrite in_app_iff. cbn. intros [H | [<- | []]]; [auto |].
    right. exists req, d, rt. auto.
  - cbn. auto.
  - destruct (ServeHTTP_change (GET_block_account idStr) w) as (Hch & _).
    cbv zeta in Hch. inversion Hch as [r0 Hrows | |]; subst.
    rewrite Hrows. auto.
  - destruct (ServeHTTP_change (GET_user_block_accounts userIDStr) w) as (Hch & _).
    cbv zeta in Hch. inversion Hch as [r0 Hrows | |]; subst.
    rewrite Hrows. auto.
  - destruct (ServeHTTP_change (DELETE_block_account idStr) w) as (Hch & _).
    cbv zeta in Hch. inversion Hch as [r0 Hrows | | s id _ Hrows]; subst;
      rewrite Hrows; [auto |].
    intros H. apply filter_In in H as [H _]. auto.
Qed.

Lemma run_validated_rows (es : list Event) (w : World) :
  Forall validated_row (block_accounts w) ->
  Forall validated_row (block_accounts (run es w)).
Proof.
  revert w. induction es as [| e es IH]; intros w Hw; [exact Hw |].
  cbn [run fold_left]. apply IH. destruct e as [r | d | s]; cbn [step];
    [| exact Hw | exact Hw].
  rewrite Forall_forall in *. intros a Ha.
  apply ServeHTTP_new_row in Ha
    as [Ha | (req & d & rate & _ & Hv & Hp & ->)]; [now apply Hw |].
  now apply created_row_validated.
Qed.

(** X8.  Whatever requests have been served, every account in the table
    has a positive user id, a principal that is not negative, status
    "active", [updated_at] equal to [created_at], and an end date after
    its start date by the duration of one of the four periods, with the
    rate of that period.  The principal can be zero: a positive amount
    below half a cent passes validation and is stored as 0.00. *)
Theorem stored_accounts_are_validated :
  (forall (es : list Event) (a : BlockAccount),
     In a (block_accounts (run es initial)) -> validated_row a) /\
  (exists (req : CreateAccountRequest) (a : BlockAccount),
     validateCreateRequest req = None /\
     In a (block_accounts (run [Serve (POST_block_account (Some req))] initial)) /\
     (Principal a == 0)%Q).
Proof.
  split.
  - intros es a Ha.
    pose proof (run_validated_rows es initial (Forall_nil _)) as H.
    rewrite Forall_forall in H. now apply H.
  - exists {| reqUserID := 1; reqPrincipal := 0.004%Q; reqPeriod := "3m" |}.
    eexists. split; [reflexivity |]. split; [left; reflexivity | reflexivity].
Qed.

Lemma stored_accounts_are_validated_witness :
  exists a, In a (block_accounts one_account) /\ validated_row a.
Proof.
  eexists. split; [left; reflexivity |].
  destruct stored_accounts_are_validated as [H _].
  apply (H [Serve (POST_block_account
              (Some {| reqUserID := 7; reqPrincipal := 5000%Q;
                       reqPeriod := "1y" |}))]).
  left. reflexivity.
Defined.

Lemma round_div_close (n : Z) (d : positive) :
  - Zpos d <= 2 * (Pg.round_div n d * Zpos d - n) <= Zpos d.
Proof.
  unfold Pg.round_div.
  pose proof (Z.mul_div_le (2 * Z.abs n + Zpos d) (2 * Zpos d) ltac:(lia)) as Hlo.
  pose proof (Z.mul_succ_div_gt (2 * Z.abs n + Zpos d) (2 * Zpos d) ltac:(lia)) as Hhi.
  set (k := (2 * Z.abs n + Zpos d) / (2 * Zpos d)) in *.
  destruct (Z.sgn_spec n) as [[Hn ->] | [[Hn ->] | [Hn ->]]];
    rewrite ?Z.abs_eq in * by lia; rewrite ?Z.abs_neq in * by lia; nia.
Qed.

Lemma numeric_close (q : Q) : (Qabs (Pg.numeric 2 q - q) <= 0.005)%Q.
Proof.
  apply Qabs_Qle_condition.
  pose proof (round_div_close (Qnum q * 100) (Qden q)) as H.
  unfold Pg.numeric.
  change (Z.to_pos (10 ^ Z.of_nat 2)) with 100%positive.
  set (r := Pg.round_div (Qnum q * 100) (Qden q)) in *.
  unfold Qle, Qminus, Qplus, Qopp. cbn [Qnum Qden].
  rewrite !Pos2Z.inj_mul.
  change (Qnum 0.005) with 5. change (Z.pos (Qden 0.005)) with 1000.
  change (Qnum (- 0.005)) with (-5).
  split; nia.
Qed.

(** X9.  The principal of an account that [CreateBlockAccount] returns is
    the requested principal at two decimal places: it has the form
    cents/100, differs from the request by at most half a cent, and
    equals the request when that already has two decimal places. *)
Theorem stored_principal_within_half_cent :
  forall (userID : Z) (principal : Q) (period : string)
         (w w' : World) (a : BlockAccount),
    CreateBlockAccount userID principal period w = (Ok (Some a), w') ->
    (exists cents : Z, Principal a = cents # 100) /\
    (Qabs (Principal a - principal) <= 0.005)%Q /\
    (forall cents : Z, (principal == cents # 100)%Q ->
                       (Principal a == principal)%Q).
Proof.
  intros userID principal period w w' a H.
  apply CreateBlockAccount_inv in H as (d & r & _ & Ha & _).
  inversion Ha; subst a. cbn [Principal created_row inserted_row].
  split; [eexists; reflexivity |]. split; [apply numeric_close |].
  intros cents Hc. exact (numeric_exact 2 _ cents Hc).
Qed.

Lemma stored_principal_within_half_cent_witness :
  exists a w',
    CreateBlockAccount 4 99.995%Q "3m" one_account = (Ok (Some a), w') /\
    (Principal a == 100)%Q /\
    (Qabs (Principal a - 99.995) <= 0.005)%Q.
Proof.
  do 2 eexists. split; [vm_compute; reflexivity |]. split; [reflexivity |].
  refine (proj1 (proj2 (stored_principal_within_half_cent
                          4 99.995%Q "3m" one_account _ _ _))).
  vm_compute. reflexivity.
Defined.

(** X10.  On the three routes with a path parameter, status 400 is
    answered exactly when [strconv.Atoi] rejects the parameter, and then
    without any statement being sent to the database. *)
Theorem path_parameter_400_iff_malformed :
  forall (s : string) (w : World),
    (StatusCode (fst (ServeHTTP (GET_block_account s) w)) = 400
     <-> Strconv.Atoi s = None) /\
    (StatusCode (fst (ServeHTTP (GET_user_block_accounts s) w)) = 400
     <-> Strconv.Atoi s = None) /\
    (StatusCode (fst (ServeHTTP (DELETE_block_account s) w)) = 400
     <-> Strconv.Atoi s = None) /\
    (Strconv.Atoi s = None ->
     snd (ServeHTTP (GET_block_account s) w) = w /\
     snd (ServeHTTP (GET_user_block_accounts s) w) = w /\
     snd (ServeHTTP (DELETE_block_account s) w) = w).
Proof.
  intros s w.
  unfold ServeHTTP, ServiceMiddleware, getBlockAccountHandler,
    getUserBlockAccountsHandler, deleteBlockAccountHandler, bind.
  cbn [svcGetBlockAccount svcGetUserBlockAccounts svcDeleteBlockAccount service].
  destruct (Strconv.Atoi s) as [id |].
  - destruct (GetBlockAccount id w) as [[[a |] | e] w1];
      destruct (GetUserBlockAccounts id w) as [[l | e'] w2];
      destruct (DeleteBlockAccount id w) as [[[| m | m] |] w3];
      cbn; (split; [| split; [| split]]);
      try (split; intros Hfalse; discriminate Hfalse);
      intros Hfalse; discriminate Hfalse.
  - cbn. (split; [| split; [| split]]); try (split; reflexivity).
    intros _. repeat split.
Qed.

Lemma path_parameter_400_iff_malformed_witness :
  StatusCode (fst (ServeHTTP (GET_block_account "1.5") one_account)) = 400 /\
  StatusCode (fst (ServeHTTP (DELETE_block_account "") one_account)) = 400 /\
  StatusCode (fst (ServeHTTP (GET_user_block_accounts "9223372036854775808")
                     one_account)) = 400 /\
  snd (ServeHTTP (DELETE_block_account "1 ") one_account) = one_account.
Proof.
  split; [| split; [| split]].
  - apply (path_parameter_400_iff_malformed "1.5" one_account). reflexivity.
  - apply (path_parameter_400_iff_malformed "" one_account). reflexivity.
  - apply (path_parameter_400_iff_malformed "9223372036854775808" one_account).
    reflexivity.
  - apply (path_parameter_400_iff_malformed "1 " one_account). reflexivity.
Defined.

Lemma filter_user_without (u id : Z) (rows : list BlockAccount) :
  (forall a, In a rows -> ID a = id -> UserID a <> u) ->
  filter (has_user u) (filter (fun a => negb (has_id id a)) rows)
  = filter (has_user u) rows.
Proof.
  induction rows as [| b rows IH]; [reflexivity |].
  intros H.
  assert (IH' : filter (has_user u)
                  (filter (fun a => negb (has_id id a)) rows)
                = filter (has_user u) rows)
    by (apply IH; intros a Ha; apply H; now right).
  cbn [filter]. destruct (has_id id b) eqn:E; cbn [negb filter].
  - assert (Hb : has_user u b = false).
    { unfold has_user. apply Z.eqb_neq. apply (H b (or_introl eq_refl)).
      now apply has_id_true. }
    rewrite Hb. exact IH'.
  - rewrite IH'. reflexivity.
Qed.

(** X11.  What a user sees in the list of their accounts does not depend
    on what is done for others: a create request for another user, a
    delete of an id that none of the user's accounts carries, and every
    get leave the user's rows, and so the list, as they were. *)
Theorem list_unaffected_by_other_users :
  forall (u : Z) (r : Request) (w : World),
    match r with
    | POST_block_account (Some req) => reqUserID req <> u
    | DELETE_block_account s =>
        forall id a, Strconv.Atoi s = Some id ->
                     In a (block_accounts w) -> ID a = id -> UserID a <> u
    | _ => True
    end ->
    let w' := snd (ServeHTTP r w) in
    filter (has_user u) (block_accounts w')
    = filter (has_user u) (block_accounts w) /\
    (clear 1 (script w) = true -> clear 1 (script w') = true ->
     fst (GetUserBlockAccounts u w') = fst (GetUserBlockAccounts u w)).
Proof.
  intros u r w Hr. cbv zeta.
  assert (Hrows : filter (has_user u) (block_accounts (snd (ServeHTTP r w)))
                  = filter (has_user u) (block_accounts w)).
  { destruct (ServeHTTP_change r w) as (Hch & _). cbv zeta in Hch.
    revert Hch. generalize (snd (ServeHTTP r w)). intros w' Hch.
    destruct Hch as [r0 E | req a _ _ _ _ Hu _ E | s id Hid E]; rewrite E.
    - reflexivity.
    - rewrite filter_app. cbn. unfold has_user at 2.
      destruct (Z.eqb_spec (UserID a) u) as [E' | E']; [congruence |].
      apply app_nil_r.
    - apply filter_user_without. intros a Ha Ha'. exact (Hr id a Hid Ha Ha'). }
  split; [exact Hrows |].
  intros Hc Hc'. rewrite !GetUserBlockAccounts_clear by assumption.
  cbn [fst]. now rewrite Hrows.
Qed.

Lemma list_unaffected_by_other_users_witness :
  let r := POST_block_account
             (Some {| reqUserID := 8; reqPrincipal := 10%Q; reqPeriod := "3m" |}) in
  fst (GetUserBlockAccounts 7 (snd (ServeHTTP r one_account)))
  = fst (GetUserBlockAccounts 7 one_account) /\
  length (block_accounts (snd (ServeHTTP r one_account))) = 2%nat.
Proof.
  intros r. split; [| reflexivity].
  apply (list_unaffected_by_other_users 7 r one_account);
    [cbn; discriminate | reflexivity | reflexivity].
Defined.

(** X12.  The list route does not check the sign of the user id: for a
    user id that parses and is zero or negative it queries the table
    and, since every stored account has a positive user id, answers 200
    with an empty list in every state the system can reach. *)
Theorem list_of_nonpositive_user_is_empty :
  forall (es : list Event) (s : string) (u : Z),
    Strconv.Atoi s = Some u ->
    u <= 0 ->
    let w := run es initial in
    clear 1 (script w) = true ->
    ServeHTTP (GET_user_block_accounts s) w
    = (writeSuccess (DataAccounts [])
         "User block accounts retrieved successfully",
       set_script (tl (script w)) w).
Proof.
  intros es s u Hs Hu w Hc.
  unfold ServeHTTP, ServiceMiddleware, getUserBlockAccountsHandler, bind.
  rewrite Hs. cbn [svcGetUserBlockAccounts service].
  rewrite GetUserBlockAccounts_clear by exact Hc.
  assert (Hnone : filter (has_user u) (block_accounts w) = []).
  { pose proof (run_validated_rows es initial (Forall_nil _)) as Hall.
    fold w in Hall. induction (block_accounts w) as [| a rows IH];
      [reflexivity |].
    apply Forall_cons_iff in Hall as [(Ha & _) Hrest]. cbn.
    unfold has_user at 1. destruct (Z.eqb_spec (UserID a) u); [lia |].
    now apply IH. }
  rewrite Hnone. reflexivity.
Qed.

Lemma list_of_nonpositive_user_is_empty_witness :
  ServeHTTP (GET_user_block_accounts "-3") one_account
  = (writeSuccess (DataAccounts [])
       "User block accounts retrieved successfully", one_account).
Proof.
  assert (Hle : -3 <= 0) by lia.
  exact (list_of_nonpositive_user_is_empty
           [Serve (POST_block_account
              (Some {| reqUserID := 7; reqPrincipal := 5000%Q;
                       reqPeriod := "1y" |}))]
           "-3" (-3) eq_refl Hle eq_refl).
Defined.

(** X13.  A create followed by the list of the same user: the list holds
    the new account, and holds it beside exactly the accounts the user
    had before. *)
Theorem create_then_list :
  forall (req : CreateAccountRequest) (w : World) (s : string),
    validateCreateRequest req = None ->
    seq_ahead w = true ->
    clear 3 (script w) = true ->
    Strconv.Atoi s = Some (reqUserID req) ->
    exists a w1 l w2,
      ServeHTTP (POST_block_account (Some req)) w
      = (writeSuccess (DataAccount (Some a))
           "Block account created successfully", w1) /\
      ServeHTTP (GET_user_block_accounts s) w1
      = (writeSuccess (DataAccounts l)
           "User block accounts retrieved successfully", w2) /\
      In a l /\
      Permutation l
        (a :: filter (has_user (reqUserID req)) (block_accounts w)) /\
      StronglySorted newer_first l.
Proof.
  intros req w s Hv Hs Hc Hid.
  pose proof Hv as Hper.
  apply validateCreateRequest_nil in Hper as (_ & _ & Hper).
  apply isValidPeriod_terms in Hper as (duration & rate & Hp).
  apply clear_split in Hc as [Hc1 Hc]. apply clear_split in Hc as [Hc2 Hc].
  apply clear_split in Hc as [Hc3 _].
  assert (Hc12 : clear 2 (script w) = true).
  { rewrite clear_S, Hc1. cbn [andb]. rewrite clear_S, Hc2. reflexivity. }
  set (a := created_row w (reqUserID req) (reqPrincipal req) duration rate).
  destruct (CreateBlockAccount_runs (reqUserID req) (reqPrincipal req)
              _ _ _ w Hp Hc12 Hs) as [w1 Hcreate].
  fold a in Hcreate. pose proof Hcreate as Hinv.
  apply CreateBlockAccount_inv in Hinv as (d & r & Hd & _ & _ & Hw1).
  rewrite Hp in Hd. inversion Hd; subst d r. clear Hd. fold a in Hw1.
  assert (Hrows1 : block_accounts w1 = (block_accounts w ++ [a])%list)
    by (rewrite Hw1; reflexivity).
  assert (Hs1 : script w1 = tl (tl (script w))) by (rewrite Hw1; reflexivity).
  set (l := order_by_created_at_desc
              (filter (has_user (reqUserID req)) (block_accounts w1))).
  assert (Hperm : Permutation l
            (a :: filter (has_user (reqUserID req)) (block_accounts w))).
  { unfold l. rewrite order_by_created_at_desc_perm, Hrows1, filter_app.
    cbn. unfold has_user at 2. cbn [UserID a created_row inserted_row].
    rewrite Z.eqb_refl. rewrite Permutation_app_comm. reflexivity. }
  exists a, w1, l, (set_script (tl (script w1)) w1).
  split; [| split; [| split; [| split]]].
  - unfold ServeHTTP, ServiceMiddleware, createBlockAccountHandler.
    rewrite Hv. unfold bind. cbn [svcCreateBlockAccount service].
    rewrite Hcreate. reflexivity.
  - unfold ServeHTTP, ServiceMiddleware, getUserBlockAccountsHandler, bind.
    rewrite Hid. cbn [svcGetUserBlockAccounts service].
    rewrite GetUserBlockAccounts_clear by (rewrite Hs1; exact Hc3).
    reflexivity.
  - apply (Permutation_in _ (Permutation_sym Hperm)). now left.
  - exact Hperm.
  - apply order_by_created_at_desc_sorted.
Qed.

Lemma create_then_list_witness :
  let req := {| reqUserID := 7; reqPrincipal := 10%Q; reqPeriod := "3m" |} in
  exists a w1 l w2,
    ServeHTTP (POST_block_account (Some req)) one_account
    = (writeSuccess (DataAccount (Some a))
         "Block account created successfully", w1) /\
    ServeHTTP (GET_user_block_accounts "7") w1
    = (writeSuccess (DataAccounts l)
         "User block accounts retrieved successfully", w2) /\
    In a l /\ length l = 2%nat.
Proof.
  intros req.
  destruct (create_then_list req one_account "7" eq_refl eq_refl eq_refl eq_refl)
    as (a & w1 & l & w2 & H1 & H2 & Hin & Hperm & _).
  exists a, w1, l, w2. repeat split; try assumption.
  apply Permutation_length in Hperm. exact Hperm.
Defined.

Lemma Legacy_create_then_get_witness :
  exists a w1 b w2,
    Legacy.CreateBlockAccount 1 1234.567%Q "1y"
      (set_clock 1700000000123456789 initial) = (Ok (Some a), w1) /\
    Legacy.GetBlockAccount (Legacy.ID a) w1 = (Ok (Some b), w2) /\
    Legacy.Principal a = 1234.567%Q /\
    Legacy.Principal b = 1234.57%Q /\
    Legacy.StartDate a = 1700000000123456789 /\
    Legacy.StartDate b = 1700000000123457000.
Proof.
  assert (Hcreate : exists a w1,
            Legacy.CreateBlockAccount 1 1234.567%Q "1y"
              (set_clock 1700000000123456789 initial) = (Ok (Some a), w1))
    by (do 2 eexists; vm_compute; reflexivity).
  destruct Hcreate as (a & w1 & Hcreate).
  pose proof (Legacy_create_then_get _ _ _ _ _ _ Hcreate)
    as (_ & _ & Hprin & Hstart & _ & Hget).
  assert (Hclear : clear 1 (script w1) = true).
  { vm_compute in Hcreate. inversion Hcreate. reflexivity. }
  destruct (Hget Hclear) as (b & w2 & Hb & _ & _ & Hbp & Hbs & _).
  exists a, w1, b, w2.
  repeat split; assumption.
Defined.

(** X15.  The create handler of the earlier revision does not validate:
    whatever the user id and the principal, a request with a known
    period is stored when the [INSERT] runs, and answered 200 with the
    values as they were sent.  Every error of the service, an unknown
    period and a failure of the driver alike, is answered 400, so this
    handler never answers 500 once the service is in the context. *)
Theorem Legacy_create_handler_stores_unvalidated :
  forall (req : CreateAccountRequest) (w : World),
    (forall duration rate,
       period_terms (reqPeriod req) = Some (duration, rate) ->
       clear 1 (script w) = true ->
       seq_ahead w = true ->
       Legacy.ServeHTTP (Legacy.POST_block_account (Some req)) w
       = ({| Legacy.StatusCode := 200;
             Legacy.ContentType := Some "application/json";
             Legacy.body :=
               Legacy.CreatedBody "Block account created successfully"
                 (Some {| Legacy.ID := block_accounts_id_seq w + 1;
                          Legacy.UserID := reqUserID req;
                          Legacy.Principal := reqPrincipal req;
                          Legacy.StartDate := clock w;
                          Legacy.EndDate := GoTime.Add (clock w) duration;
                          Legacy.InterestRate := rate;
                          Legacy.Status := "active" |}) |},
          after_insert w
            (created_row w (reqUserID req) (reqPrincipal req) duration rate))) /\
    (period_terms (reqPeriod req) = None ->
     Legacy.ServeHTTP (Legacy.POST_block_account (Some req)) w
     = (Legacy.httpError ("invalid period: " ++ reqPeriod req) 400, w)) /\
    (forall msg rest,
       period_terms (reqPeriod req) <> None ->
       script w = Some msg :: rest ->
       Legacy.ServeHTTP (Legacy.POST_block_account (Some req)) w
       = (Legacy.httpError msg 400, set_script rest w)) /\
    In (Legacy.StatusCode
          (fst (Legacy.ServeHTTP (Legacy.POST_block_account (Some req)) w)))
       [200; 400].
Proof.
  intros req w.
  unfold Legacy.ServeHTTP, Legacy.ServiceMiddleware,
    Legacy.createBlockAccountHandler, bind.
  cbn [Legacy.svcCreateBlockAccount Legacy.service].
  split; [| split; [| split]].
  - intros duration rate Hp Hc Hs.
    unfold Legacy.CreateBlockAccount. rewrite Hp. unfold bind, Now.
    rewrite insert_returning_id_runs by assumption. reflexivity.
  - intros Hp. unfold Legacy.CreateBlockAccount. rewrite Hp. reflexivity.
  - intros msg rest Hp Hscript. unfold Legacy.CreateBlockAccount.
    destruct (period_terms (reqPeriod req)) as [[duration rate] |];
      [| congruence].
    unfold bind, Now, insert_returning_id.
    rewrite (statement_scripted _ _ msg rest Hscript). reflexivity.
  - destruct (Legacy.CreateBlockAccount (reqUserID req) (reqPrincipal req)
                (reqPeriod req) w) as [[a | e] w1]; cbn; tauto.
Qed.

Lemma Legacy_create_handler_stores_unvalidated_witness :
  let req := {| reqUserID := 0; reqPrincipal := (-5)%Q; reqPeriod := "1y" |} in
  Legacy.StatusCode
    (fst (Legacy.ServeHTTP (Legacy.POST_block_account (Some req)) initial))
  = 200 /\
  map Principal
    (block_accounts
       (snd (Legacy.ServeHTTP (Legacy.POST_block_account (Some req)) initial)))
  = [(-5.00)%Q] /\
  StatusCode (fst (ServeHTTP (POST_block_account (Some req)) initial)) = 400.
Proof.
  intros req.
  destruct (Legacy_create_handler_stores_unvalidated req initial)
    as (Hstore & _).
  rewrite (Hstore _ _ eq_refl eq_refl eq_refl).
  repeat split.
Defined.

(** X16.  On the get and delete routes the two revisions agree: for every
    path parameter and every state they answer with the same status and
    leave the same state behind, and a get that succeeds carries the same
    account, the earlier revision without the two timestamps. *)
Theorem revisions_agree_on_get_and_delete :
  forall (s : string) (w : World),
    Legacy.StatusCode (fst (Legacy.ServeHTTP (Legacy.GET_block_account s) w))
    = StatusCode (fst (ServeHTTP (GET_block_account s) w)) /\
    snd (Legacy.ServeHTTP (Legacy.GET_block_account s) w)
    = snd (ServeHTTP (GET_block_account s) w) /\
    (forall a message,
       body (fst (ServeHTTP (GET_block_account s) w))
       = SuccessBody {| sucSuccess := true;
                        sucData := DataAccount (Some a);
                        sucMessage := message |} ->
       Legacy.body (fst (Legacy.ServeHTTP (Legacy.GET_block_account s) w))
       = Legacy.AccountBody (Legacy.scan a)) /\
    Legacy.StatusCode (fst (Legacy.ServeHTTP (Legacy.DELETE_block_account s) w))
    = StatusCode (fst (ServeHTTP (DELETE_block_account s) w)) /\
    snd (Legacy.ServeHTTP (Legacy.DELETE_block_account s) w)
    = snd (ServeHTTP (DELETE_block_account s) w).
Proof.
  intros s w.
  unfold Legacy.ServeHTTP, Legacy.ServiceMiddleware, ServeHTTP,
    ServiceMiddleware, Legacy.getBlockAccountHandler, getBlockAccountHandler,
    Legacy.deleteBlockAccountHandler, deleteBlockAccountHandler, bind.
  cbn [Legacy.svcGetBlockAccount Legacy.svcDeleteBlockAccount Legacy.service
       svcGetBlockAccount svcDeleteBlockAccount service].
  destruct (Strconv.Atoi s) as [id |]; [| cbn; repeat split; discriminate].
  change (Legacy.DeleteBlockAccount id w) with (DeleteBlockAccount id w).
  unfold Legacy.GetBlockAccount, GetBlockAccount, bind.
  destruct (select_by_id id w) as [[row | [| m | m]] w1];
    destruct (DeleteBlockAccount id w) as [[[| m' | m'] |] w2];
    cbn; repeat split; try discriminate;
    intros a message H; inversion H; reflexivity.
Qed.

Lemma revisions_agree_on_get_and_delete_witness :
  Legacy.StatusCode
    (fst (Legacy.ServeHTTP (Legacy.GET_block_account "1") one_account)) = 200 /\
  Legacy.StatusCode
    (fst (Legacy.ServeHTTP (Legacy.DELETE_block_account "5") one_account)) = 404 /\
  exists a,
    In a (block_accounts one_account) /\
    Legacy.body
      (fst (Legacy.ServeHTTP (Legacy.GET_block_account "1") one_account))
    = Legacy.AccountBody (Legacy.scan a).
Proof.
  destruct (revisions_agree_on_get_and_delete "1" one_account)
    as (Hget & _ & Hbody & _).
  destruct (revisions_agree_on_get_and_delete "5" one_account)
    as (_ & _ & _ & Hdel & _).
  rewrite Hget, Hdel. split; [reflexivity |]. split; [reflexivity |].
  eexists. split; [left; reflexivity |].
  apply (Hbody _ "Block account retrieved successfully"). reflexivity.
Defined.
